(** * AnonCam face tracker: pose estimation, model matrix and session cache

    A shallow embedding of [MediapipeWrapper/src/FaceTracker.cpp] and
    [MediapipeWrapper/include/FaceTracker.h].

    Modelling conventions.
    - [float] is idealised as a real number: every arithmetic operator of
      the source is the corresponding exact operation on [R], and a decimal
      literal such as [0.95f] is the rational it denotes.  Rounding, NaN,
      infinities and signed zeros are outside the model.  The one constant
      written with more digits than its type holds, [kPi], has the value
      its [constexpr float] declaration gives it.
    - [std::sin] and [std::cos] are the functions [sin] and [cos] of the
      real-number library; [std::atan2] is defined below from [atan].
    - A C array [float a[n]] is a value of type [array n], an [n]-fold
      nested pair, indexed by [aget] and updated by [aset].
    - [std::vector<Landmark>] is [list Landmark].
    - A member function that mutates its object takes the object and
      returns the new one; a function with an out-parameter returns it.
    - The mutex of [FaceTracker::Impl] is held for the whole body of each
      member function, so a call is one atomic state transition; the model
      is sequential. *)

From Stdlib Require Import Reals Lra List ZArith Lia Bool RNsatz.
Import ListNotations.
Local Open Scope R_scope.

(** The type [float] of the source. *)
Abbreviation float := R (only parsing).

(** ** Fixed-size arrays *)

Fixpoint array (n : nat) : Type :=
  match n with
  | O => unit
  | S k => (float * array k)%type
  end.

(** [a[i]].  Every index in the source is in bounds; out of bounds the
    model reads 0. *)
Fixpoint aget {n : nat} : array n -> nat -> float :=
  match n with
  | O => fun _ _ => 0
  | S k => fun a i =>
      match i with
      | O => fst a
      | S j => aget (snd a) j
      end
  end.

(** [a[i] = v].  Out of bounds the model leaves the array unchanged. *)
Fixpoint aset {n : nat} : array n -> nat -> float -> array n :=
  match n with
  | O => fun a _ _ => a
  | S k => fun a i v =>
      match i with
      | O => (v, snd a)
      | S j => (fst a, aset (snd a) j v)
      end
  end.

(** Zero-initialisation of an array. *)
Fixpoint azero (n : nat) : array n :=
  match n with
  | O => tt
  | S k => (0, azero k)
  end.

Fixpoint fill_loop {n : nat} (a : array n) (first : nat) (count : nat)
  (value : float) : array n :=
  match count with
  | O => a
  | S c => fill_loop (aset a first value) (S first) c value
  end.

(** [std::fill(a + first, a + last, value)]. *)
Definition std_fill {n : nat} (a : array n) (first last : nat)
  (value : float) : array n :=
  fill_loop a first (last - first) value.

Fixpoint to_list {n : nat} : array n -> list float :=
  match n with
  | O => fun _ => []
  | S k => fun a => fst a :: to_list (snd a)
  end.

(** ** [<cmath>] *)

(** [std::atan2(y, x)]: the principal value of the argument of the point
    [(x, y)], in the interval (-PI, PI]; 0 at the origin. *)
Definition atan2 (y x : float) : float :=
  if Rlt_dec 0 x then atan (y / x)
  else if Rlt_dec x 0 then
    if Rle_dec 0 y then atan (y / x) + PI else atan (y / x) - PI
  else if Rlt_dec 0 y then PI / 2
  else if Rlt_dec y 0 then - PI / 2
  else 0.

(** ** Anonymous namespace: helpers for 3D math *)

(** The digits of [constexpr float kPi = 3.14159265358979323846f]. *)
Definition kPi_literal : R := 3.14159265358979323846.

(** [kPi]: the value of the constant, the single-precision number nearest
    to the literal, 13176795 * 2^-22. *)
Definition kPi : float := 3.1415927410125732421875.

Module Matrix3x3.

(** [struct Matrix3x3 { float m[9]; }], row-major. *)
Record t : Type := Build { m : array 9 }.

Definition set_m (r : t) (i : nat) (v : float) : t :=
  Build (aset (m r) i v).

(** The default constructor: fill with zeros, then
    [m[0] = m[4] = m[8] = 1.0f] (assigned right to left).  The array is
    a fresh member, overwritten in full by the fill. *)
Definition ctor : t :=
  let r := Build (std_fill (azero 9) 0 9 0.0) in
  let r := set_m r 8 1.0 in
  let r := set_m r 4 1.0 in
  let r := set_m r 0 1.0 in
  r.

Definition identity : t := ctor.

Definition rotationX (angle : float) : t :=
  let r := ctor in
  let c := cos angle in
  let s := sin angle in
  let r := set_m r 4 c in
  let r := set_m r 5 (- s) in
  let r := set_m r 7 s in
  let r := set_m r 8 c in
  r.

Definition rotationY (angle : float) : t :=
  let r := ctor in
  let c := cos angle in
  let s := sin angle in
  let r := set_m r 0 c in
  let r := set_m r 2 s in
  let r := set_m r 6 (- s) in
  let r := set_m r 8 c in
  r.

Definition rotationZ (angle : float) : t :=
  let r := ctor in
  let c := cos angle in
  let s := sin angle in
  let r := set_m r 0 c in
  let r := set_m r 1 (- s) in
  let r := set_m r 3 s in
  let r := set_m r 4 c in
  r.

(** [operator*]: the three nested loops, with the accumulator
    [result.m[i * 3 + j]] cleared and then summed into. *)
Definition mul (self other : t) : t :=
  fold_left (fun result i =>
    fold_left (fun result j =>
      let result := set_m result (i * 3 + j) 0 in
      fold_left (fun result k =>
        set_m result (i * 3 + j)
          (aget (m result) (i * 3 + j)
           + aget (m self) (i * 3 + k) * aget (m other) (k * 3 + j)))
        (seq 0 3) result)
      (seq 0 3) result)
    (seq 0 3) ctor.

End Matrix3x3.

(** ** Namespace AnonCam: data model ([FaceTracker.h]) *)

Record Landmark : Type := mkLandmark { x : float; y : float; z : float }.

Record HeadPose : Type := mkHeadPose {
  translation : array 3;
  rotation : array 3;
  modelMatrix : array 16
}.

Record KeyPoints : Type := mkKeyPoints {
  leftEye : Landmark;
  rightEye : Landmark;
  noseTip : Landmark;
  upperLip : Landmark;
  chin : Landmark;
  leftEar : Landmark;
  rightEar : Landmark;
  forehead : Landmark
}.

Record FaceResult : Type := mkFaceResult {
  hasFace : bool;
  confidence : float;
  landmarks : list Landmark;
  pose : HeadPose;
  keyPoints : KeyPoints
}.

Record Config : Type := mkConfig {
  maxNumFaces : Z;
  minDetectionConfidence : float;
  minTrackingConfidence : float;
  enableSegmentation : bool;
  useGPU : bool
}.

(** [Config()]: the default member initialisers. *)
Definition Config_default : Config :=
  mkConfig 1 0.5 0.5 false false.

(** Zero-initialised values, as produced by [T{}] and [T()]. *)
Definition Landmark_zero : Landmark := mkLandmark 0 0 0.

Definition HeadPose_zero : HeadPose :=
  mkHeadPose (azero 3) (azero 3) (azero 16).

Definition KeyPoints_zero : KeyPoints :=
  mkKeyPoints Landmark_zero Landmark_zero Landmark_zero Landmark_zero
              Landmark_zero Landmark_zero Landmark_zero Landmark_zero.

(** [FaceResult{}] and the member initialiser [lastResult_()]:
    value-initialisation, which zeroes the members that have no default
    member initialiser. *)
Definition FaceResult_value_init : FaceResult :=
  mkFaceResult false 0 [] HeadPose_zero KeyPoints_zero.

(** The members of a [FaceResult] that have no default member initialiser.
    The declaration [FaceResult result;] default-initialises the object:
    [hasFace], [confidence] and [landmarks] get their defaults, while
    [pose] and [keyPoints] keep whatever the storage of the automatic
    variable holds.  That content is an input of the model. *)
Record Indeterminate : Type := mkIndeterminate {
  ind_pose : HeadPose;
  ind_keyPoints : KeyPoints
}.

(** [FaceResult result;] *)
Definition FaceResult_default_init (storage : Indeterminate) : FaceResult :=
  mkFaceResult false 0 [] (ind_pose storage) (ind_keyPoints storage).

Definition set_hasFace (r : FaceResult) (b : bool) : FaceResult :=
  mkFaceResult b (confidence r) (landmarks r) (pose r) (keyPoints r).

Definition set_confidence (r : FaceResult) (c : float) : FaceResult :=
  mkFaceResult (hasFace r) c (landmarks r) (pose r) (keyPoints r).

Definition set_landmarks (r : FaceResult) (l : list Landmark) : FaceResult :=
  mkFaceResult (hasFace r) (confidence r) l (pose r) (keyPoints r).

Definition set_pose (r : FaceResult) (p : HeadPose) : FaceResult :=
  mkFaceResult (hasFace r) (confidence r) (landmarks r) p (keyPoints r).

Definition set_keyPoints (r : FaceResult) (kp : KeyPoints) : FaceResult :=
  mkFaceResult (hasFace r) (confidence r) (landmarks r) (pose r) kp.

Definition set_translation (p : HeadPose) (i : nat) (v : float) : HeadPose :=
  mkHeadPose (aset (translation p) i v) (rotation p) (modelMatrix p).

Definition set_rotation (p : HeadPose) (i : nat) (v : float) : HeadPose :=
  mkHeadPose (translation p) (aset (rotation p) i v) (modelMatrix p).

Definition set_modelMatrix (p : HeadPose) (mm : array 16) : HeadPose :=
  mkHeadPose (translation p) (rotation p) mm.

(** ** CoreVideo *)

(** The pixel buffer of CoreVideo, which the repository only declares by
    including its header: its dimensions and its bytes. *)
Record CVPixelBuffer : Type := mkCVPixelBuffer {
  buf_width : Z;
  buf_height : Z;
  buf_data : list Z
}.

(** [CVPixelBufferRef]: a pointer, [None] when null. *)
Definition CVPixelBufferRef : Type := option CVPixelBuffer.

Definition CVPixelBufferGetWidth (b : CVPixelBuffer) : Z := buf_width b.
Definition CVPixelBufferGetHeight (b : CVPixelBuffer) : Z := buf_height b.

(** [static_cast<int>] of a [size_t]: reduction to a signed 32-bit value. *)
Definition static_cast_int (n : Z) : Z :=
  ((n + 2 ^ 31) mod 2 ^ 32 - 2 ^ 31)%Z.

(** ** Landmark indices *)

Module LandmarkIndex.
Definition kLeftEye : nat := 33.
Definition kRightEye : nat := 263.
Definition kNoseTip : nat := 1.
Definition kUpperLip : nat := 13.
Definition kLowerLip : nat := 14.
Definition kChin : nat := 152.
Definition kLeftEar : nat := 234.
Definition kRightEar : nat := 454.
Definition kForehead : nat := 10.
Definition kLeftCheek : nat := 205.
Definition kRightCheek : nat := 425.
End LandmarkIndex.

(** [landmarks[i]] on a vector.  Each use is guarded by the size check of
    its function, so the default is never returned. *)
Definition at_index (landmarks : list Landmark) (i : nat) : Landmark :=
  nth i landmarks Landmark_zero.

(** ** Helper implementations ([FaceTracker.cpp]) *)

Definition kExpectedLandmarks : nat := 478.

Definition extractKeyPoints (landmarks : list Landmark) (kp : KeyPoints)
  : KeyPoints :=
  if (length landmarks <? kExpectedLandmarks)%nat then kp
  else
    mkKeyPoints
      (at_index landmarks LandmarkIndex.kLeftEye)
      (at_index landmarks LandmarkIndex.kRightEye)
      (at_index landmarks LandmarkIndex.kNoseTip)
      (at_index landmarks LandmarkIndex.kUpperLip)
      (at_index landmarks LandmarkIndex.kChin)
      (at_index landmarks LandmarkIndex.kLeftEar)
      (at_index landmarks LandmarkIndex.kRightEar)
      (at_index landmarks LandmarkIndex.kForehead).

Definition computeHeadPose (landmarks : list Landmark) (pose : HeadPose)
  : HeadPose :=
  if (length landmarks <? 478)%nat then pose
  else
    let leftEye := at_index landmarks LandmarkIndex.kLeftEye in
    let rightEye := at_index landmarks LandmarkIndex.kRightEye in
    let eyeCenterX := (x leftEye + x rightEye) * 0.5 in
    let pose := set_rotation pose 1 ((eyeCenterX - 0.5) * 2.0) in
    let noseTip := at_index landmarks LandmarkIndex.kNoseTip in
    let chin := at_index landmarks LandmarkIndex.kChin in
    let eyeY := (y leftEye + y rightEye) * 0.5 in
    let pose := set_rotation pose 0 ((eyeY - y noseTip) * 1.5) in
    let dx := x rightEye - x leftEye in
    let dy := y rightEye - y leftEye in
    let pose := set_rotation pose 2 (atan2 dy dx) in
    let pose := set_translation pose 0 (x noseTip - 0.5) in
    let pose := set_translation pose 1 (y noseTip - 0.5) in
    let pose := set_translation pose 2 (z noseTip) in
    pose.

(** [normalizeModelMatrix(pose, matrix)] returns the 16 floats that
    [matrix] points to after the call. *)
Definition normalizeModelMatrix (pose : HeadPose) (matrix : array 16)
  : array 16 :=
  let matrix := std_fill matrix 0 16 0.0 in
  let matrix := aset matrix 15 1.0 in
  let matrix := aset matrix 10 1.0 in
  let matrix := aset matrix 5 1.0 in
  let matrix := aset matrix 0 1.0 in
  let Rx := Matrix3x3.rotationX (aget (rotation pose) 0) in
  let Ry := Matrix3x3.rotationY (aget (rotation pose) 1) in
  let Rz := Matrix3x3.rotationZ (aget (rotation pose) 2) in
  let R := Matrix3x3.mul (Matrix3x3.mul Rz Ry) Rx in
  let matrix := aset matrix 0 (aget (Matrix3x3.m R) 0) in
  let matrix := aset matrix 1 (aget (Matrix3x3.m R) 1) in
  let matrix := aset matrix 2 (aget (Matrix3x3.m R) 2) in
  let matrix := aset matrix 4 (aget (Matrix3x3.m R) 3) in
  let matrix := aset matrix 5 (aget (Matrix3x3.m R) 4) in
  let matrix := aset matrix 6 (aget (Matrix3x3.m R) 5) in
  let matrix := aset matrix 8 (aget (Matrix3x3.m R) 6) in
  let matrix := aset matrix 9 (aget (Matrix3x3.m R) 7) in
  let matrix := aset matrix 10 (aget (Matrix3x3.m R) 8) in
  let matrix := aset matrix 12 (aget (translation pose) 0 * 2.0) in
  let matrix := aset matrix 13 (- aget (translation pose) 1 * 2.0) in
  let matrix := aset matrix 14 (aget (translation pose) 2 * 1.0 + 1.0) in
  matrix.

(** ** [FaceTracker::Impl] *)

Record Impl : Type := mkImpl {
  config_ : Config;
  lastResult_ : FaceResult
}.

Definition Impl_ctor (config : Config) : Impl :=
  mkImpl config FaceResult_value_init.

Definition set_lastResult (self : Impl) (r : FaceResult) : Impl :=
  mkImpl (config_ self) r.

(** The stub's constants. *)
Definition kNumLandmarks : Z := 478.
Definition centerX : float := 0.5.
Definition centerY : float := 0.5.
Definition faceWidth : float := 0.3.
Definition faceHeight : float := 0.4.

(** The body of the mesh-generation loop for index [i]. *)
Definition mockLandmark (i : Z) : Landmark :=
  let u := IZR (Z.rem i 23) / 22.0 in
  let v := IZR (Z.quot i 23) / 20.0 in
  let angle := u * 2.0 * kPi in
  let radiusX := faceWidth * 0.5 * sin (v * kPi) in
  let radiusY := faceHeight * 0.5 in
  mkLandmark (centerX + radiusX * cos angle)
             (centerY + (v - 0.5) * faceHeight)
             (cos (v * kPi) * 0.1).

(** [for (int i = ...; i < kNumLandmarks; ++i) landmarks.push_back(lm)],
    with [fuel] bounding the number of iterations. *)
Fixpoint mesh_loop (fuel : nat) (i : Z) (landmarks : list Landmark)
  : list Landmark :=
  match fuel with
  | O => landmarks
  | S fuel' =>
      if (i <? kNumLandmarks)%Z
      then mesh_loop fuel' (i + 1)%Z (landmarks ++ [mockLandmark i])
      else landmarks
  end.

(** [Impl::processFrame].  [storage] is the content of the automatic
    variable [result] before its declaration runs.  The call
    [landmarks.reserve] changes the capacity of the vector only and has
    no counterpart here. *)
Definition Impl_processFrame (self : Impl) (storage : Indeterminate)
  (pixelBuffer : CVPixelBufferRef) : FaceResult * Impl :=
  let result := FaceResult_default_init storage in
  let result := set_hasFace result false in
  match pixelBuffer with
  | None => (result, self)
  | Some buffer =>
      let width := static_cast_int (CVPixelBufferGetWidth buffer) in
      let height := static_cast_int (CVPixelBufferGetHeight buffer) in
      let result := set_hasFace result true in
      let result := set_confidence result 0.95 in
      let result :=
        set_landmarks result
          (mesh_loop (Z.to_nat kNumLandmarks) 0%Z (landmarks result)) in
      (result, set_lastResult self result)
  end.

Definition Impl_getLastResult (self : Impl) : FaceResult :=
  lastResult_ self.

Definition Impl_reset (self : Impl) : Impl :=
  set_lastResult self FaceResult_value_init.

(** ** [FaceTracker] *)

Record FaceTracker : Type := mkFaceTracker {
  impl_ : Impl;
  initialized_ : bool
}.

Definition FaceTracker_ctor (config : Config) : FaceTracker :=
  mkFaceTracker (Impl_ctor config) true.

(** The derivation [FaceTracker::processFrame] runs on a result that has
    a face. *)
Definition derive (result : FaceResult) : FaceResult :=
  let result :=
    set_keyPoints result
      (extractKeyPoints (landmarks result) (keyPoints result)) in
  let result :=
    set_pose result (computeHeadPose (landmarks result) (pose result)) in
  let result :=
    set_pose result
      (set_modelMatrix (pose result)
         (normalizeModelMatrix (pose result) (modelMatrix (pose result)))) in
  result.

Definition processFrame (self : FaceTracker) (storage : Indeterminate)
  (pixelBuffer : CVPixelBufferRef) : FaceResult * FaceTracker :=
  let '(result, impl) := Impl_processFrame (impl_ self) storage pixelBuffer in
  let self := mkFaceTracker impl (initialized_ self) in
  if hasFace result then (derive result, self) else (result, self).

Definition reset (self : FaceTracker) : FaceTracker :=
  mkFaceTracker (Impl_reset (impl_ self)) (initialized_ self).

Definition getLastResult (self : FaceTracker) : FaceResult :=
  Impl_getLastResult (impl_ self).

Definition isInitialized (self : FaceTracker) : bool :=
  initialized_ self.

(** ** Reference definitions, from the wording of the specification *)

(** The standard right-handed elementary rotations, as entry functions
    [row -> column -> value]. *)
Definition std_Rx (a : R) (i j : nat) : R :=
  match i, j with
  | 0%nat, 0%nat => 1
  | 1%nat, 1%nat => cos a
  | 1%nat, 2%nat => - sin a
  | 2%nat, 1%nat => sin a
  | 2%nat, 2%nat => cos a
  | _, _ => 0
  end.

Definition std_Ry (a : R) (i j : nat) : R :=
  match i, j with
  | 0%nat, 0%nat => cos a
  | 0%nat, 2%nat => sin a
  | 1%nat, 1%nat => 1
  | 2%nat, 0%nat => - sin a
  | 2%nat, 2%nat => cos a
  | _, _ => 0
  end.

Definition std_Rz (a : R) (i j : nat) : R :=
  match i, j with
  | 0%nat, 0%nat => cos a
  | 0%nat, 1%nat => - sin a
  | 1%nat, 0%nat => sin a
  | 1%nat, 1%nat => cos a
  | 2%nat, 2%nat => 1
  | _, _ => 0
  end.

(** The product of two 3x3 matrices given by their entries. *)
Definition mat_prod (A B : nat -> nat -> R) (i j : nat) : R :=
  A i 0%nat * B 0%nat j + A i 1%nat * B 1%nat j + A i 2%nat * B 2%nat j.

(** The 4x4 identity in row-major layout: entry [row * 4 + col]. *)
Definition identity4 (index : nat) : R :=
  if (index / 4 =? index mod 4)%nat then 1 else 0.

(** The sequence [f(0), f(1), ..., f(477)] of stub landmarks, each a
    function of its index alone. *)
Definition mockLandmarks : list Landmark :=
  map (fun k => mockLandmark (Z.of_nat k)) (seq 0 478).

(** The result [Impl::processFrame] builds for a non-null frame. *)
Definition stub_result (storage : Indeterminate) : FaceResult :=
  mkFaceResult true 0.95 mockLandmarks
               (ind_pose storage) (ind_keyPoints storage).

(** ** Sample data *)

(** A landmark vector of 478 zero points with the given left eye, right
    eye and nose tip at their indices. *)
Definition sample_landmarks (le re nt : Landmark) : list Landmark :=
  [Landmark_zero; nt] ++ repeat Landmark_zero 31 ++ [le]
  ++ repeat Landmark_zero 229 ++ [re] ++ repeat Landmark_zero 214.

Definition sample_frame : CVPixelBuffer := mkCVPixelBuffer 2 1 [0; 0]%Z.

Definition zero_storage : Indeterminate :=
  mkIndeterminate HeadPose_zero KeyPoints_zero.


(** ** Definitions used to state further properties *)

(** Entry (row, col) of a [Matrix3x3]. *)
Definition entry3 (A : Matrix3x3.t) (row col : nat) : R :=
  aget (Matrix3x3.m A) (row * 3 + col).

(** Entry (row, col) of a row-major 4x4 matrix. *)
Definition entry4 (M : array 16) (row col : nat) : R :=
  aget M (row * 4 + col).

(** The dot product of rows [i] and [j] of the upper-left 3x3 block of a
    row-major 4x4 matrix. *)
Definition block_row_dot (M : array 16) (i j : nat) : R :=
  entry4 M i 0 * entry4 M j 0 + entry4 M i 1 * entry4 M j 1
  + entry4 M i 2 * entry4 M j 2.

(** The determinant of the upper-left 3x3 block. *)
Definition block_det (M : array 16) : R :=
  entry4 M 0 0 * (entry4 M 1 1 * entry4 M 2 2 - entry4 M 1 2 * entry4 M 2 1)
  - entry4 M 0 1 * (entry4 M 1 0 * entry4 M 2 2 - entry4 M 1 2 * entry4 M 2 0)
  + entry4 M 0 2 * (entry4 M 1 0 * entry4 M 2 1 - entry4 M 1 1 * entry4 M 2 0).

(** A landmark moved by the offset [d]. *)
Definition shift_landmark (d lm : Landmark) : Landmark :=
  mkLandmark (x lm + x d) (y lm + y d) (z lm + z d).

(** The ranges the header documents for a landmark: [x] and [y] in
    [0, 1], [z] in [-1, 1]. *)
Definition normalised (lm : Landmark) : Prop :=
  0 <= x lm <= 1 /\ 0 <= y lm <= 1 /\ -1 <= z lm <= 1.

(** [landmarks[i]] with the bound made explicit: [None] stands for a read
    past the end of the vector, which [operator[]] leaves undefined. *)
Definition at_index_checked (landmarks : list Landmark) (i : nat)
  : option Landmark :=
  nth_error landmarks i.

(** Continue with the element read, or fail with the read. *)
Definition read_then {A : Type} (element : option Landmark)
  (k : Landmark -> option A) : option A :=
  match element with
  | Some lm => k lm
  | None => None
  end.

(** [extractKeyPoints] with every [landmarks[...]] checked: the result is
    [None] as soon as one read is out of bounds. *)
Definition extractKeyPoints_checked (landmarks : list Landmark)
  (kp : KeyPoints) : option KeyPoints :=
  if (length landmarks <? kExpectedLandmarks)%nat then Some kp
  else
    read_then (at_index_checked landmarks LandmarkIndex.kLeftEye) (fun e1 =>
    read_then (at_index_checked landmarks LandmarkIndex.kRightEye) (fun e2 =>
    read_then (at_index_checked landmarks LandmarkIndex.kNoseTip) (fun e3 =>
    read_then (at_index_checked landmarks LandmarkIndex.kUpperLip) (fun e4 =>
    read_then (at_index_checked landmarks LandmarkIndex.kChin) (fun e5 =>
    read_then (at_index_checked landmarks LandmarkIndex.kLeftEar) (fun e6 =>
    read_then (at_index_checked landmarks LandmarkIndex.kRightEar) (fun e7 =>
    read_then (at_index_checked landmarks LandmarkIndex.kForehead) (fun e8 =>
      Some (mkKeyPoints e1 e2 e3 e4 e5 e6 e7 e8))))))))).

(** [computeHeadPose] with every [landmarks[...]] checked, in the order
    the source binds its four references. *)
Definition computeHeadPose_checked (landmarks : list Landmark)
  (pose : HeadPose) : option HeadPose :=
  if (length landmarks <? 478)%nat then Some pose
  else
    read_then (at_index_checked landmarks LandmarkIndex.kLeftEye)
      (fun leftEye =>
    read_then (at_index_checked landmarks LandmarkIndex.kRightEye)
      (fun rightEye =>
    let eyeCenterX := (x leftEye + x rightEye) * 0.5 in
    let pose := set_rotation pose 1 ((eyeCenterX - 0.5) * 2.0) in
    read_then (at_index_checked landmarks LandmarkIndex.kNoseTip)
      (fun noseTip =>
    read_then (at_index_checked landmarks LandmarkIndex.kChin)
      (fun chin =>
    let eyeY := (y leftEye + y rightEye) * 0.5 in
    let pose := set_rotation pose 0 ((eyeY - y noseTip) * 1.5) in
    let dx := x rightEye - x leftEye in
    let dy := y rightEye - y leftEye in
    let pose := set_rotation pose 2 (atan2 dy dx) in
    let pose := set_translation pose 0 (x noseTip - 0.5) in
    let pose := set_translation pose 1 (y noseTip - 0.5) in
    let pose := set_translation pose 2 (z noseTip) in
    Some pose)))).

(** The eight fields of a [KeyPoints], in declaration order. *)
Definition keyPoints_list (kp : KeyPoints) : list Landmark :=
  [leftEye kp; rightEye kp; noseTip kp; upperLip kp; chin kp; leftEar kp;
   rightEar kp; forehead kp].

(** ** Call sequences on a session *)

(** One call of the public interface that can touch the session. *)
Inductive Call : Type :=
| CallProcessFrame (storage : Indeterminate) (pixelBuffer : CVPixelBufferRef)
| CallReset
| CallGetLastResult.

(** The session after one call. *)
Definition step (self : FaceTracker) (c : Call) : FaceTracker :=
  match c with
  | CallProcessFrame storage pixelBuffer =>
      snd (processFrame self storage pixelBuffer)
  | CallReset => reset self
  | CallGetLastResult => self
  end.

(** The session after a sequence of calls, first call first. *)
Definition run (self : FaceTracker) (calls : list Call) : FaceTracker :=
  fold_left step calls self.

(** * Proofs *)

Ltac destruct_array a :=
  repeat match type of a with
         | array (S _) => let h := fresh "e" in destruct a as [h a]
         | array O => destruct a
         | prod _ _ => let h := fresh "e" in destruct a as [h a]
         | unit => destruct a
         end.

(** ** Literals *)

Lemma float_lit_0 : 0.0 = 0.
Proof. lra. Qed.

Lemma float_lit_1 : 1.0 = 1.
Proof. lra. Qed.

Lemma float_lit_2 : 2.0 = 2.
Proof. lra. Qed.

Ltac float_ring :=
  rewrite ?float_lit_0, ?float_lit_1, ?float_lit_2; try reflexivity; ring.

(** ** Arrays *)

Lemma aget_nth (n : nat) (a : array n) (i : nat) :
  aget a i = nth i (to_list a) 0.
Proof.
  revert a i; induction n as [|n IH]; intros a i.
  - destruct i; reflexivity.
  - destruct i as [|i]; simpl; [reflexivity | apply IH].
Qed.

Lemma to_list_length (n : nat) (a : array n) : length (to_list a) = n.
Proof.
  induction n as [|n IH]; simpl; [reflexivity | now rewrite IH].
Qed.

Lemma to_list_inj (n : nat) (a b : array n) :
  to_list a = to_list b -> a = b.
Proof.
  induction n as [|n IH]; simpl in *.
  - now destruct a, b.
  - destruct a as [u a], b as [v b]; simpl; intros H.
    injection H as -> H. now rewrite (IH _ _ H).
Qed.

Lemma aget_aset_same (n : nat) (a : array n) (i : nat) (v : float) :
  (i < n)%nat -> aget (aset a i v) i = v.
Proof.
  revert a i; induction n as [|n IH]; intros a i Hi; [lia|].
  destruct i as [|i]; simpl; [reflexivity | apply IH; lia].
Qed.

Lemma aget_aset_other (n : nat) (a : array n) (i j : nat) (v : float) :
  i <> j -> aget (aset a i v) j = aget a j.
Proof.
  revert a i j; induction n as [|n IH]; intros a i j Hij; [reflexivity|].
  destruct i as [|i], j as [|j]; simpl; try reflexivity; try congruence.
  apply IH; congruence.
Qed.

Lemma aget_azero (n i : nat) : aget (azero n) i = 0.
Proof.
  revert i; induction n as [|n IH]; intros [|i]; simpl; auto.
Qed.

(** ** Matrix3x3 *)

(** The constructor builds the identity. *)
Lemma Matrix3x3_ctor_entries :
  to_list (Matrix3x3.m Matrix3x3.ctor) = [1; 0; 0; 0; 1; 0; 0; 0; 1].
Proof.
  cbn. now rewrite float_lit_0, float_lit_1.
Qed.

(** Entry [i * 3 + j] of a product is the dot product of row [i] of the
    left factor with column [j] of the right one. *)
Lemma Matrix3x3_mul_entry (A B : Matrix3x3.t) (i j : nat) :
  (i < 3)%nat -> (j < 3)%nat ->
  aget (Matrix3x3.m (Matrix3x3.mul A B)) (i * 3 + j) =
    aget (Matrix3x3.m A) (i * 3 + 0) * aget (Matrix3x3.m B) (0 * 3 + j)
    + aget (Matrix3x3.m A) (i * 3 + 1) * aget (Matrix3x3.m B) (1 * 3 + j)
    + aget (Matrix3x3.m A) (i * 3 + 2) * aget (Matrix3x3.m B) (2 * 3 + j).
Proof.
  intros Hi Hj. destruct A as [a], B as [b].
  destruct_array a; destruct_array b.
  destruct i as [|[|[|i]]]; [| | |lia];
    (destruct j as [|[|[|j]]]; [| | |lia]); cbn; ring.
Qed.

Lemma rotationX_entries (a : float) :
  to_list (Matrix3x3.m (Matrix3x3.rotationX a)) =
    [1; 0; 0; 0; cos a; - sin a; 0; sin a; cos a].
Proof.
  cbn -[cos sin]. now rewrite float_lit_0, float_lit_1.
Qed.

Lemma rotationY_entries (a : float) :
  to_list (Matrix3x3.m (Matrix3x3.rotationY a)) =
    [cos a; 0; sin a; 0; 1; 0; - sin a; 0; cos a].
Proof.
  cbn -[cos sin]. now rewrite float_lit_0, float_lit_1.
Qed.

Lemma rotationZ_entries (a : float) :
  to_list (Matrix3x3.m (Matrix3x3.rotationZ a)) =
    [cos a; - sin a; 0; sin a; cos a; 0; 0; 0; 1].
Proof.
  cbn -[cos sin]. now rewrite float_lit_0, float_lit_1.
Qed.

(** ** normalizeModelMatrix in closed form *)

Lemma normalizeModelMatrix_entries
  (tx ty tz pitch yaw roll : float) (mm matrix : array 16) :
  to_list
    (normalizeModelMatrix
       (mkHeadPose (tx, (ty, (tz, tt))) (pitch, (yaw, (roll, tt))) mm)
       matrix) =
    [ cos roll * cos yaw;
      cos roll * sin yaw * sin pitch - sin roll * cos pitch;
      cos roll * sin yaw * cos pitch + sin roll * sin pitch;
      0;
      sin roll * cos yaw;
      sin roll * sin yaw * sin pitch + cos roll * cos pitch;
      sin roll * sin yaw * cos pitch - cos roll * sin pitch;
      0;
      - sin yaw;
      cos yaw * sin pitch;
      cos yaw * cos pitch;
      0;
      tx * 2;
      - ty * 2;
      tz * 1 + 1;
      1 ].
Proof.
  destruct_array matrix.
  cbn -[cos sin].
  repeat (apply (f_equal2 cons); [float_ring|]).
  reflexivity.
Qed.

Lemma normalizeModelMatrix_aget
  (tx ty tz pitch yaw roll : float) (mm matrix : array 16) (i : nat) :
  aget (normalizeModelMatrix
          (mkHeadPose (tx, (ty, (tz, tt))) (pitch, (yaw, (roll, tt))) mm)
          matrix) i =
  nth i
    [ cos roll * cos yaw;
      cos roll * sin yaw * sin pitch - sin roll * cos pitch;
      cos roll * sin yaw * cos pitch + sin roll * sin pitch;
      0;
      sin roll * cos yaw;
      sin roll * sin yaw * sin pitch + cos roll * cos pitch;
      sin roll * sin yaw * cos pitch - cos roll * sin pitch;
      0;
      - sin yaw;
      cos yaw * sin pitch;
      cos yaw * cos pitch;
      0;
      tx * 2;
      - ty * 2;
      tz * 1 + 1;
      1 ] 0.
Proof.
  now rewrite aget_nth, normalizeModelMatrix_entries.
Qed.

(** The elementary rotations of the source are the standard ones. *)
Lemma rotationX_standard (a : float) (i j : nat) :
  (i < 3)%nat -> (j < 3)%nat ->
  aget (Matrix3x3.m (Matrix3x3.rotationX a)) (i * 3 + j) = std_Rx a i j.
Proof.
  intros Hi Hj. rewrite aget_nth, rotationX_entries.
  destruct i as [|[|[|i]]]; [| | |lia];
    (destruct j as [|[|[|j]]]; [| | |lia]); reflexivity.
Qed.

Lemma rotationY_standard (a : float) (i j : nat) :
  (i < 3)%nat -> (j < 3)%nat ->
  aget (Matrix3x3.m (Matrix3x3.rotationY a)) (i * 3 + j) = std_Ry a i j.
Proof.
  intros Hi Hj. rewrite aget_nth, rotationY_entries.
  destruct i as [|[|[|i]]]; [| | |lia];
    (destruct j as [|[|[|j]]]; [| | |lia]); reflexivity.
Qed.

Lemma rotationZ_standard (a : float) (i j : nat) :
  (i < 3)%nat -> (j < 3)%nat ->
  aget (Matrix3x3.m (Matrix3x3.rotationZ a)) (i * 3 + j) = std_Rz a i j.
Proof.
  intros Hi Hj. rewrite aget_nth, rotationZ_entries.
  destruct i as [|[|[|i]]]; [| | |lia];
    (destruct j as [|[|[|j]]]; [| | |lia]); reflexivity.
Qed.

(** [operator*] computes the matrix product. *)
Lemma Matrix3x3_mul_standard (A B : Matrix3x3.t) (i j : nat) :
  (i < 3)%nat -> (j < 3)%nat ->
  aget (Matrix3x3.m (Matrix3x3.mul A B)) (i * 3 + j) =
    mat_prod (fun r c => aget (Matrix3x3.m A) (r * 3 + c))
             (fun r c => aget (Matrix3x3.m B) (r * 3 + c)) i j.
Proof.
  intros Hi Hj. now rewrite Matrix3x3_mul_entry.
Qed.

(** The standard rotation about the Z axis turns the X axis towards the
    Y axis. *)
Lemma std_Rz_quarter_turn :
  mat_prod (std_Rz (PI / 2)) (fun r _ => nth r [1; 0; 0] 0) 0%nat 0%nat = 0
  /\ mat_prod (std_Rz (PI / 2)) (fun r _ => nth r [1; 0; 0] 0) 1%nat 0%nat = 1
  /\ mat_prod (std_Rz (PI / 2)) (fun r _ => nth r [1; 0; 0] 0) 2%nat 0%nat = 0.
Proof.
  unfold mat_prod; cbn -[cos sin PI].
  rewrite cos_PI2, sin_PI2. repeat split; ring.
Qed.

(** ** Model matrix: the zero pose (C4) *)

Lemma zero_pose_matrix_entries (mm matrix : array 16) :
  to_list (normalizeModelMatrix (mkHeadPose (azero 3) (azero 3) mm) matrix) =
    [ 1; 0; 0; 0;
      0; 1; 0; 0;
      0; 0; 1; 0;
      0; 0; 1; 1 ].
Proof.
  cbn [azero]. rewrite normalizeModelMatrix_entries.
  rewrite cos_0, sin_0.
  repeat (apply (f_equal2 cons); [ring|]). reflexivity.
Qed.

(** C4.  For every head pose whose rotation is (0,0,0) and whose
    translation is (0,0,0), whatever its previous matrix, each of the 16
    entries of the matrix normalizeModelMatrix produces equals the entry of
    the 4x4 identity (row-major), except entry 14, which is 1.0. *)
Theorem normalizeModelMatrix_zero_pose
  (mm matrix : array 16) (i : nat) :
  (i < 16)%nat ->
  aget (normalizeModelMatrix (mkHeadPose (azero 3) (azero 3) mm) matrix) i =
    if (i =? 14)%nat then 1.0 else identity4 i.
Proof.
  intros Hi.
  rewrite aget_nth, zero_pose_matrix_entries.
  do 16 (destruct i as [|i]; [cbn; lra|]).
  lia.
Qed.

Lemma normalizeModelMatrix_zero_pose_witness :
  (14 < 16)%nat
  /\ aget (normalizeModelMatrix HeadPose_zero (azero 16)) 14 = 1.0.
Proof.
  split; [lia|].
  apply (normalizeModelMatrix_zero_pose (azero 16) (azero 16) 14); lia.
Defined.

(** ** Model matrix: the rotation block (C5) *)

(** C5.  For all angles pitch, yaw and roll, entry (i, j) of the upper-left
    3x3 block of the model matrix, at index [i * 4 + j], is entry (i, j) of
    the product Rz(roll) * Ry(yaw) * Rx(pitch) of the standard right-handed
    elementary rotations; and for every angle theta the pose with rotation
    (0, 0, theta) gives the upper-left 2x2 block
    [[cos theta, - sin theta], [sin theta, cos theta]]. *)
Theorem normalizeModelMatrix_rotation_block
  (tr : array 3) (mm matrix : array 16) :
  (forall (pitch yaw roll : float) (i j : nat),
     (i < 3)%nat -> (j < 3)%nat ->
     aget (normalizeModelMatrix
             (mkHeadPose tr (pitch, (yaw, (roll, tt))) mm) matrix)
          (i * 4 + j) =
       mat_prod (mat_prod (std_Rz roll) (std_Ry yaw)) (std_Rx pitch) i j)
  /\
  (forall theta : float,
     let M := normalizeModelMatrix
                (mkHeadPose tr (0, (0, (theta, tt))) mm) matrix in
     aget M 0 = cos theta /\ aget M 1 = - sin theta
     /\ aget M 4 = sin theta /\ aget M 5 = cos theta).
Proof.
  destruct_array tr. split.
  - intros pitch yaw roll i j Hi Hj.
    rewrite normalizeModelMatrix_aget.
    destruct i as [|[|[|i]]]; [| | |lia];
      (destruct j as [|[|[|j]]]; [| | |lia]);
      unfold mat_prod; cbn -[cos sin]; ring.
  - intros theta M; subst M.
    rewrite !normalizeModelMatrix_aget; cbn -[cos sin].
    rewrite cos_0, sin_0. repeat split; ring.
Qed.

Lemma normalizeModelMatrix_rotation_block_witness :
  (1 < 3)%nat /\ (2 < 3)%nat
  /\ aget (normalizeModelMatrix
             (mkHeadPose (azero 3) (1, (2, (3, tt))) (azero 16)) (azero 16))
          (1 * 4 + 2) =
       mat_prod (mat_prod (std_Rz 3) (std_Ry 2)) (std_Rx 1) 1 2.
Proof.
  split; [lia|]. split; [lia|].
  apply (proj1 (normalizeModelMatrix_rotation_block
                  (azero 3) (azero 16) (azero 16))); lia.
Defined.

(** ** Model matrix: the translation entries (C6) *)

(** C6.  For every head pose with translation (tx, ty, tz), whatever its
    rotation, normalizeModelMatrix stores tx * 2.0 at index 12, - ty * 2.0
    at index 13 and tz * 1.0 + 1.0 at index 14 of the row-major matrix;
    indices 3, 7 and 11 hold 0. *)
Theorem normalizeModelMatrix_translation
  (tx ty tz : float) (rot : array 3) (mm matrix : array 16) :
  let M := normalizeModelMatrix (mkHeadPose (tx, (ty, (tz, tt))) rot mm)
                                matrix in
  aget M 12 = tx * 2.0
  /\ aget M 13 = - ty * 2.0
  /\ aget M 14 = tz * 1.0 + 1.0
  /\ aget M 3 = 0 /\ aget M 7 = 0 /\ aget M 11 = 0.
Proof.
  destruct_array rot. intros M; subst M.
  rewrite !normalizeModelMatrix_aget; cbn -[cos sin].
  repeat split; lra.
Qed.

(** ** Landmark vectors *)

Lemma sample_landmarks_length (le re nt : Landmark) :
  length (sample_landmarks le re nt) = 478%nat.
Proof. reflexivity. Qed.

Lemma sample_landmarks_at (le re nt : Landmark) :
  at_index (sample_landmarks le re nt) LandmarkIndex.kLeftEye = le
  /\ at_index (sample_landmarks le re nt) LandmarkIndex.kRightEye = re
  /\ at_index (sample_landmarks le re nt) LandmarkIndex.kNoseTip = nt.
Proof. repeat split. Qed.

Lemma size_check_passes (landmarks : list Landmark) :
  (478 <= length landmarks)%nat -> (length landmarks <? 478)%nat = false.
Proof. intros H. apply Nat.ltb_ge. exact H. Qed.

Lemma size_check_fails (landmarks : list Landmark) :
  (length landmarks < 478)%nat -> (length landmarks <? 478)%nat = true.
Proof. intros H. apply Nat.ltb_lt. exact H. Qed.

(** Under the size check every key index is inside the vector. *)
Lemma key_indices_in_bounds (landmarks : list Landmark) (i : nat) :
  (478 <= length landmarks)%nat ->
  In i [LandmarkIndex.kLeftEye; LandmarkIndex.kRightEye;
        LandmarkIndex.kNoseTip; LandmarkIndex.kUpperLip;
        LandmarkIndex.kChin; LandmarkIndex.kLeftEar;
        LandmarkIndex.kRightEar; LandmarkIndex.kForehead] ->
  nth_error landmarks i = Some (at_index landmarks i).
Proof.
  intros Hlen Hin. unfold at_index.
  apply nth_error_nth'.
  unfold LandmarkIndex.kLeftEye, LandmarkIndex.kRightEye,
    LandmarkIndex.kNoseTip, LandmarkIndex.kUpperLip, LandmarkIndex.kChin,
    LandmarkIndex.kLeftEar, LandmarkIndex.kRightEar,
    LandmarkIndex.kForehead in Hin.
  simpl in Hin.
  repeat (destruct Hin as [<- | Hin]; [lia|]). contradiction.
Qed.

(** ** Too few landmarks (C7) *)

(** C7.  For every landmark vector of length below 478 (length 477 and
    length 0 included), extractKeyPoints leaves the key points exactly as
    they were, so key points that start at the all-zero default stay all
    zero with no field filled in, and computeHeadPose leaves the pose
    exactly as it was; both functions return normally. *)
Theorem short_landmarks_leave_outputs_untouched (landmarks : list Landmark) :
  (length landmarks < 478)%nat ->
  (forall kp : KeyPoints, extractKeyPoints landmarks kp = kp)
  /\ extractKeyPoints landmarks KeyPoints_zero = KeyPoints_zero
  /\ (forall pose : HeadPose, computeHeadPose landmarks pose = pose)
  /\ computeHeadPose landmarks HeadPose_zero = HeadPose_zero.
Proof.
  intros Hlen.
  assert (Hkp : forall kp, extractKeyPoints landmarks kp = kp).
  { intros kp. unfold extractKeyPoints, kExpectedLandmarks.
    now rewrite size_check_fails. }
  assert (Hp : forall pose, computeHeadPose landmarks pose = pose).
  { intros p. unfold computeHeadPose. now rewrite size_check_fails. }
  repeat split; auto.
Qed.

Lemma short_landmarks_leave_outputs_untouched_witness :
  (length (repeat (mkLandmark 0.3 0.5 0.1) 477) < 478)%nat
  /\ extractKeyPoints (repeat (mkLandmark 0.3 0.5 0.1) 477) KeyPoints_zero
     = KeyPoints_zero
  /\ computeHeadPose (repeat (mkLandmark 0.3 0.5 0.1) 477) HeadPose_zero
     = HeadPose_zero.
Proof.
  split; [rewrite repeat_length; lia|].
  split;
    apply (short_landmarks_leave_outputs_untouched
             (repeat (mkLandmark 0.3 0.5 0.1) 477));
    rewrite repeat_length; lia.
Defined.

(** ** Head pose in closed form *)

Lemma computeHeadPose_closed (landmarks : list Landmark) (pose : HeadPose) :
  (478 <= length landmarks)%nat ->
  let le := at_index landmarks 33 in
  let re := at_index landmarks 263 in
  let nt := at_index landmarks 1 in
  computeHeadPose landmarks pose =
    mkHeadPose
      (x nt - 0.5, (y nt - 0.5, (z nt, tt)))
      (((y le + y re) * 0.5 - y nt) * 1.5,
       (((x le + x re) * 0.5 - 0.5) * 2.0,
        (atan2 (y re - y le) (x re - x le), tt)))
      (modelMatrix pose).
Proof.
  intros Hlen le re nt. unfold computeHeadPose.
  rewrite size_check_passes by exact Hlen.
  destruct pose as [tr rot mm]. destruct_array tr. destruct_array rot.
  reflexivity.
Qed.

(** ** Yaw, pitch and translation (C2) *)

(** C2.  For every landmark vector of length at least 478, with leftEye,
    rightEye and noseTip the landmarks at indices 33, 263 and 1,
    computeHeadPose sets rotation[1] to
    ((leftEye.x + rightEye.x) / 2 - 0.5) * 2.0, rotation[0] to
    ((leftEye.y + rightEye.y) / 2 - noseTip.y) * 1.5 and the translation to
    (noseTip.x - 0.5, noseTip.y - 0.5, noseTip.z); with left eye
    (0.35, 0.45, 0), right eye (0.65, 0.45, 0) and nose tip (0.5, 0.55, 0)
    that is yaw 0, pitch -0.15 and translation (0, 0.05, 0). *)
Theorem computeHeadPose_yaw_pitch_translation
  (landmarks : list Landmark) (pose : HeadPose) :
  (478 <= length landmarks)%nat ->
  let le := at_index landmarks 33 in
  let re := at_index landmarks 263 in
  let nt := at_index landmarks 1 in
  let p := computeHeadPose landmarks pose in
  (aget (rotation p) 1 = ((x le + x re) / 2 - 0.5) * 2.0
   /\ aget (rotation p) 0 = ((y le + y re) / 2 - y nt) * 1.5
   /\ aget (translation p) 0 = x nt - 0.5
   /\ aget (translation p) 1 = y nt - 0.5
   /\ aget (translation p) 2 = z nt)
  /\ (le = mkLandmark 0.35 0.45 0 ->
      re = mkLandmark 0.65 0.45 0 ->
      nt = mkLandmark 0.5 0.55 0 ->
      aget (rotation p) 1 = 0
      /\ aget (rotation p) 0 = -0.15
      /\ to_list (translation p) = [0; 0.05; 0]).
Proof.
  intros Hlen le re nt p. subst p.
  rewrite (computeHeadPose_closed landmarks pose Hlen).
  fold le re nt. cbn [rotation translation aget fst snd to_list].
  split.
  - repeat split; lra.
  - intros -> -> ->. cbn [x y z].
    repeat split; try lra.
    repeat (apply (f_equal2 cons); [lra|]). reflexivity.
Qed.

Lemma computeHeadPose_yaw_pitch_translation_witness :
  let landmarks :=
    sample_landmarks (mkLandmark 0.35 0.45 0) (mkLandmark 0.65 0.45 0)
                     (mkLandmark 0.5 0.55 0) in
  let p := computeHeadPose landmarks HeadPose_zero in
  (478 <= length landmarks)%nat
  /\ aget (rotation p) 1 = 0
  /\ aget (rotation p) 0 = -0.15
  /\ to_list (translation p) = [0; 0.05; 0].
Proof.
  intros landmarks p.
  split; [apply Nat.eq_le_incl; reflexivity|].
  apply (computeHeadPose_yaw_pitch_translation landmarks HeadPose_zero);
    [apply Nat.eq_le_incl; reflexivity | reflexivity ..].
Defined.

(** ** atan2 *)

Lemma atan2_right (v u : R) : 0 < u -> atan2 v u = atan (v / u).
Proof.
  intros Hu. unfold atan2. destruct (Rlt_dec 0 u); [reflexivity | contradiction].
Qed.

Lemma atan2_range (v u : R) : - PI < atan2 v u <= PI.
Proof.
  pose proof PI_RGT_0 as HPI.
  pose proof (atan_bound (v / u)) as Hb.
  unfold atan2.
  destruct (Rlt_dec 0 u) as [Hu|Hu]; [lra|].
  destruct (Rlt_dec u 0) as [Hu'|Hu'].
  - destruct (Rle_dec 0 v) as [Hv|Hv].
    + assert (v / u <= 0).
      { unfold Rdiv. assert (/ u < 0) by (apply Rinv_lt_0_compat; exact Hu'). nra. }
      assert (atan (v / u) <= 0).
      { rewrite <- atan_0. destruct H as [H | ->]; [left; apply atan_increasing; exact H | right; reflexivity]. }
      lra.
    + assert (0 < v / u).
      { unfold Rdiv. assert (/ u < 0) by (apply Rinv_lt_0_compat; exact Hu'). nra. }
      assert (0 < atan (v / u)).
      { rewrite <- atan_0. apply atan_increasing; exact H. }
      lra.
  - destruct (Rlt_dec 0 v); [lra|]. destruct (Rlt_dec v 0); lra.
Qed.

Lemma sqrt_one_plus_sqr (v u : R) :
  u <> 0 -> sqrt (1 + (v / u)²) = sqrt (u * u + v * v) / Rabs u.
Proof.
  intros Hu.
  replace (1 + (v / u)²) with ((u * u + v * v) / (u * u))
    by (unfold Rsqr; field; exact Hu).
  rewrite sqrt_div_alt by nra.
  now rewrite <- (sqrt_Rsqr_abs u).
Qed.

Lemma norm_pos (v u : R) : u <> 0 \/ v <> 0 -> 0 < sqrt (u * u + v * v).
Proof.
  intros H. apply sqrt_lt_R0. destruct H; nra.
Qed.

Lemma atan_polar (v u : R) :
  u <> 0 ->
  Rabs u = sqrt (u * u + v * v) * cos (atan (v / u))
  /\ v * (Rabs u / u) = sqrt (u * u + v * v) * sin (atan (v / u)).
Proof.
  intros Hu.
  pose proof (norm_pos v u (or_introl Hu)) as Hd.
  assert (Ha : 0 < Rabs u) by (apply Rabs_pos_lt; exact Hu).
  rewrite cos_atan, sin_atan, sqrt_one_plus_sqr by exact Hu.
  split; field; lra.
Qed.

Lemma atan2_polar (v u : R) :
  u <> 0 \/ v <> 0 ->
  u = sqrt (u * u + v * v) * cos (atan2 v u)
  /\ v = sqrt (u * u + v * v) * sin (atan2 v u).
Proof.
  intros Hne. unfold atan2.
  destruct (Rlt_dec 0 u) as [Hu|Hu].
  - destruct (atan_polar v u) as [Hc Hs]; [lra|].
    rewrite Rabs_right in Hc, Hs by lra.
    split; [exact Hc|]. rewrite <- Hs. field; lra.
  - destruct (Rlt_dec u 0) as [Hu'|Hu'].
    + destruct (atan_polar v u) as [Hc Hs]; [lra|].
      rewrite Rabs_left in Hc, Hs by lra.
      destruct (Rle_dec 0 v) as [Hv|Hv].
      * rewrite neg_cos, neg_sin. split; [lra|].
        rewrite Ropp_mult_distr_r_reverse, <- Hs. field; lra.
      * unfold Rminus. rewrite cos_plus, sin_plus, cos_neg, sin_neg, cos_PI, sin_PI.
        split; [lra|].
        replace (sin (atan (v / u)) * -1 + cos (atan (v / u)) * - 0)
          with (- sin (atan (v / u))) by ring.
        rewrite Ropp_mult_distr_r_reverse, <- Hs. field; lra.
    + assert (u = 0) by lra. subst u.
      replace (0 * 0 + v * v) with (v * v) by ring.
      destruct (Rlt_dec 0 v) as [Hv|Hv].
      * rewrite cos_PI2, sin_PI2, sqrt_square by lra. lra.
      * destruct (Rlt_dec v 0) as [Hv'|Hv']; [|lra].
        replace (- PI / 2) with (- (PI / 2)) by field.
        rewrite cos_neg, sin_neg, cos_PI2, sin_PI2.
        replace (v * v) with ((- v) * (- v)) by ring.
        rewrite sqrt_square by lra. lra.
Qed.

(** ** Roll (C3) *)

(** C3.  For every landmark vector of length at least 478, with leftEye
    and rightEye the landmarks at indices 33 and 263, computeHeadPose sets
    rotation[2] to atan2(rightEye.y - leftEye.y, rightEye.x - leftEye.x).
    That value is the angle of the vector from the left eye to the right
    eye: it lies in (-PI, PI], and when the eyes are distinct the vector is
    its length times (cos roll, sin roll).  With left eye (0.3, 0.5) and
    right eye (0.7, 0.5) the roll is 0. *)
Theorem computeHeadPose_roll (landmarks : list Landmark) (pose : HeadPose) :
  (478 <= length landmarks)%nat ->
  let le := at_index landmarks 33 in
  let re := at_index landmarks 263 in
  let dx := x re - x le in
  let dy := y re - y le in
  let roll := aget (rotation (computeHeadPose landmarks pose)) 2 in
  roll = atan2 dy dx
  /\ - PI < roll <= PI
  /\ (dx <> 0 \/ dy <> 0 ->
      dx = sqrt (dx * dx + dy * dy) * cos roll
      /\ dy = sqrt (dx * dx + dy * dy) * sin roll)
  /\ (x le = 0.3 -> y le = 0.5 -> x re = 0.7 -> y re = 0.5 -> roll = 0).
Proof.
  intros Hlen le re dx dy roll.
  assert (Hroll : roll = atan2 dy dx).
  { subst roll. now rewrite (computeHeadPose_closed landmarks pose Hlen). }
  split; [exact Hroll|]. rewrite Hroll.
  split; [apply atan2_range|].
  split; [apply atan2_polar|].
  intros Hlx Hly Hrx Hry. subst dx dy.
  rewrite Hlx, Hly, Hrx, Hry.
  rewrite atan2_right by lra.
  replace ((0.5 - 0.5) / (0.7 - 0.3)) with 0 by lra.
  apply atan_0.
Qed.

Lemma computeHeadPose_roll_witness :
  let landmarks :=
    sample_landmarks (mkLandmark 0.3 0.5 0) (mkLandmark 0.7 0.5 0)
                     Landmark_zero in
  (478 <= length landmarks)%nat
  /\ aget (rotation (computeHeadPose landmarks HeadPose_zero)) 2 = 0.
Proof.
  intros landmarks.
  split; [apply Nat.eq_le_incl; reflexivity|].
  apply (computeHeadPose_roll landmarks HeadPose_zero);
    [apply Nat.eq_le_incl; reflexivity | reflexivity ..].
Defined.

(** ** The stub's landmark loop *)

Lemma mesh_loop_spec (fuel : nat) (i : nat) (acc : list Landmark) :
  (i + fuel <= 478)%nat ->
  mesh_loop fuel (Z.of_nat i) acc =
    acc ++ map (fun k => mockLandmark (Z.of_nat k)) (seq i fuel).
Proof.
  revert i acc; induction fuel as [|fuel IH]; intros i acc Hb; simpl.
  - now rewrite app_nil_r.
  - assert (Hlt : (Z.of_nat i <? kNumLandmarks)%Z = true).
    { apply Z.ltb_lt. unfold kNumLandmarks. lia. }
    rewrite Hlt.
    replace (Z.of_nat i + 1)%Z with (Z.of_nat (S i)) by lia.
    rewrite IH by lia. now rewrite <- app_assoc.
Qed.

(** The loop runs to completion on its fuel and yields the landmarks of
    the indices 0 to 477 in order. *)
Lemma mesh_loop_full :
  mesh_loop (Z.to_nat kNumLandmarks) 0%Z [] = mockLandmarks.
Proof.
  change 0%Z with (Z.of_nat 0).
  replace (Z.to_nat kNumLandmarks) with 478%nat by reflexivity.
  now rewrite mesh_loop_spec by lia.
Qed.

Lemma mockLandmarks_length : length mockLandmarks = 478%nat.
Proof.
  unfold mockLandmarks. now rewrite length_map, length_seq.
Qed.

Lemma mockLandmarks_at (k : nat) :
  (k < 478)%nat -> at_index mockLandmarks k = mockLandmark (Z.of_nat k).
Proof.
  intros Hk. unfold at_index, mockLandmarks.
  rewrite (nth_indep _ Landmark_zero (mockLandmark (Z.of_nat 0)))
    by (rewrite length_map, length_seq; exact Hk).
  rewrite (map_nth (fun k => mockLandmark (Z.of_nat k))).
  now rewrite seq_nth by exact Hk.
Qed.

(** ** The session *)

Lemma Impl_processFrame_null (self : Impl) (storage : Indeterminate) :
  Impl_processFrame self storage None =
    (FaceResult_default_init storage, self).
Proof. reflexivity. Qed.

Lemma Impl_processFrame_frame
  (self : Impl) (storage : Indeterminate) (buffer : CVPixelBuffer) :
  Impl_processFrame self storage (Some buffer) =
    (stub_result storage, set_lastResult self (stub_result storage)).
Proof.
  unfold Impl_processFrame.
  cbn [FaceResult_default_init set_hasFace set_confidence set_landmarks
       hasFace confidence landmarks pose keyPoints].
  rewrite mesh_loop_full. reflexivity.
Qed.

Lemma processFrame_null (self : FaceTracker) (storage : Indeterminate) :
  processFrame self storage None = (FaceResult_default_init storage, self).
Proof.
  unfold processFrame. rewrite Impl_processFrame_null.
  destruct self; reflexivity.
Qed.

Lemma processFrame_frame
  (self : FaceTracker) (storage : Indeterminate) (buffer : CVPixelBuffer) :
  processFrame self storage (Some buffer) =
    (derive (stub_result storage),
     mkFaceTracker (set_lastResult (impl_ self) (stub_result storage))
                   (initialized_ self)).
Proof.
  unfold processFrame. rewrite Impl_processFrame_frame. reflexivity.
Qed.

(** On a vector of at least 478 landmarks the derivation overwrites the
    key points, the rotation, the translation and the matrix in full. *)
Lemma derive_closed
  (h : bool) (c : float) (lms : list Landmark) (p : HeadPose)
  (kp : KeyPoints) :
  (478 <= length lms)%nat ->
  derive (mkFaceResult h c lms p kp) =
    let p' := computeHeadPose lms HeadPose_zero in
    mkFaceResult h c lms
      (set_modelMatrix p' (normalizeModelMatrix p' (azero 16)))
      (mkKeyPoints (at_index lms 33) (at_index lms 263) (at_index lms 1)
                   (at_index lms 13) (at_index lms 152) (at_index lms 234)
                   (at_index lms 454) (at_index lms 10)).
Proof.
  intros Hlen.
  unfold derive, extractKeyPoints, kExpectedLandmarks, set_keyPoints,
    set_pose, set_modelMatrix.
  cbn [landmarks keyPoints pose hasFace confidence].
  rewrite size_check_passes by exact Hlen.
  rewrite !(computeHeadPose_closed lms _ Hlen).
  cbn zeta.
  cbn [translation rotation modelMatrix HeadPose_zero].
  f_equal. f_equal. apply to_list_inj.
  destruct p as [tr rot mm].
  now rewrite !normalizeModelMatrix_entries.
Qed.

(** After a call on a non-null frame the cache holds the result as
    [Impl::processFrame] built it, and the value returned to the caller is
    the derivation applied to that cached value. *)
Lemma getLastResult_after_processFrame
  (self : FaceTracker) (storage : Indeterminate) (buffer : CVPixelBuffer) :
  let run := processFrame self storage (Some buffer) in
  getLastResult (snd run) = stub_result storage
  /\ fst run = derive (getLastResult (snd run)).
Proof.
  cbn zeta. rewrite processFrame_frame. split; reflexivity.
Qed.

(** ** Null frame (C8) *)



(** ** Reset (C9) *)

(** C9.  For every session state, whatever result is cached, reset
    followed by getLastResult returns the all-default FaceResult: hasFace
    false, confidence 0, no landmarks, zero pose and zero key points. *)
Theorem reset_then_getLastResult (self : FaceTracker) :
  getLastResult (reset self) = FaceResult_value_init
  /\ hasFace (getLastResult (reset self)) = false
  /\ confidence (getLastResult (reset self)) = 0
  /\ landmarks (getLastResult (reset self)) = [].
Proof.
  repeat split.
Qed.

(** ** The stubbed detector (C10) *)

(** C10.  For all sessions (any configuration, any cached result), all
    non-null frames and any content of the uninitialised storage,
    processFrame returns one and the same result: hasFace true, confidence
    0.95 and the 478 landmarks mockLandmark(0), ..., mockLandmark(477),
    each computed from its index alone.  The result of Impl::processFrame
    has the same three fields. *)
Theorem processFrame_ignores_frame_and_config
  (t1 t2 : FaceTracker) (s1 s2 : Indeterminate) (b1 b2 : CVPixelBuffer) :
  let r1 := fst (processFrame t1 s1 (Some b1)) in
  let r2 := fst (processFrame t2 s2 (Some b2)) in
  let i1 := fst (Impl_processFrame (impl_ t1) s1 (Some b1)) in
  r1 = r2
  /\ hasFace r1 = true
  /\ confidence r1 = 0.95
  /\ landmarks r1 = map (fun k => mockLandmark (Z.of_nat k)) (seq 0 478)
  /\ length (landmarks r1) = 478%nat
  /\ hasFace i1 = true
  /\ confidence i1 = 0.95
  /\ landmarks i1 = landmarks r1.
Proof.
  cbn zeta. rewrite !processFrame_frame, Impl_processFrame_frame.
  cbn [fst]. unfold stub_result.
  rewrite !derive_closed by (rewrite mockLandmarks_length; lia).
  cbn zeta. cbn [hasFace confidence landmarks].
  rewrite mockLandmarks_length.
  repeat split.
Qed.

(** ** The cache after a successful call (C1) *)

(** C1.  On a freshly constructed session, with zeroed storage, one
    processFrame call on a non-null frame returns a result r with hasFace
    true; the following getLastResult agrees with r on hasFace, confidence
    and landmarks but not on the derived fields: entry 15 of its model
    matrix is 0 where r has 1, and its nose-tip key point is the zero
    landmark where r has landmark 1.  The cached value differs from r. *)
Theorem getLastResult_omits_derived_fields :
  let run := processFrame (FaceTracker_ctor Config_default) zero_storage
                          (Some sample_frame) in
  let r := fst run in
  let cached := getLastResult (snd run) in
  hasFace r = true
  /\ hasFace cached = hasFace r
  /\ confidence cached = confidence r
  /\ landmarks cached = landmarks r
  /\ aget (modelMatrix (pose r)) 15 = 1
  /\ aget (modelMatrix (pose cached)) 15 = 0
  /\ noseTip (keyPoints r) = at_index (landmarks r) 1
  /\ noseTip (keyPoints cached) = Landmark_zero
  /\ cached <> r.
Proof.
  cbn zeta. rewrite processFrame_frame. cbn [fst snd].
  unfold stub_result.
  rewrite derive_closed by (rewrite mockLandmarks_length; lia).
  cbn zeta.
  rewrite (computeHeadPose_closed mockLandmarks HeadPose_zero)
    by (rewrite mockLandmarks_length; lia).
  cbn zeta.
  unfold getLastResult, Impl_getLastResult, set_modelMatrix.
  cbn [impl_ set_lastResult lastResult_ hasFace confidence landmarks pose
       keyPoints modelMatrix translation rotation noseTip zero_storage
       ind_pose ind_keyPoints HeadPose_zero KeyPoints_zero].
  rewrite normalizeModelMatrix_aget. cbn [nth].
  assert (H0 : aget (azero 16) 15 = 0) by apply aget_azero.
  repeat split; try exact H0.
  intros Heq.
  apply (f_equal (fun r => aget (modelMatrix (pose r)) 15)) in Heq.
  cbn [pose modelMatrix] in Heq.
  rewrite normalizeModelMatrix_aget in Heq. cbn [nth] in Heq.
  change (aget (modelMatrix HeadPose_zero) 15) with (aget (azero 16) 15)
    in Heq.
  rewrite H0 in Heq. lra.
Qed.

(** * Further properties *)

(** ** Matrix3x3 and the model matrix *)

Lemma trig_one (a : R) : sin a * sin a + cos a * cos a = 1.
Proof. pose proof (sin2_cos2 a) as H. unfold Rsqr in H. exact H. Qed.

Lemma Matrix3x3_eq (A B : Matrix3x3.t) :
  to_list (Matrix3x3.m A) = to_list (Matrix3x3.m B) -> A = B.
Proof.
  destruct A as [a], B as [b]; cbn [Matrix3x3.m]; intros H.
  now rewrite (to_list_inj 9 a b H).
Qed.

(** X1.  Matrix3x3::operator* computes the matrix product: for every pair
    of matrices, entry (i, j) of the result is the sum over k of
    left(i, k) * right(k, j); nothing of the identity the result object
    starts as survives. *)
Theorem Matrix3x3_mul_is_matrix_product (A B : Matrix3x3.t) (i j : nat) :
  (i < 3)%nat -> (j < 3)%nat ->
  entry3 (Matrix3x3.mul A B) i j = mat_prod (entry3 A) (entry3 B) i j.
Proof.
  intros Hi Hj. unfold entry3, mat_prod.
  now rewrite Matrix3x3_mul_entry.
Qed.

Lemma Matrix3x3_mul_is_matrix_product_witness :
  (1 < 3)%nat /\ (2 < 3)%nat
  /\ entry3 (Matrix3x3.mul (Matrix3x3.rotationX 1) (Matrix3x3.rotationZ 2))
            1 2
     = mat_prod (entry3 (Matrix3x3.rotationX 1))
                (entry3 (Matrix3x3.rotationZ 2)) 1 2.
Proof.
  split; [lia|]. split; [lia|].
  apply (Matrix3x3_mul_is_matrix_product
           (Matrix3x3.rotationX 1) (Matrix3x3.rotationZ 2) 1 2); lia.
Defined.

(** X2.  The identity matrix is neutral for operator* on both sides. *)
Theorem Matrix3x3_mul_identity (A : Matrix3x3.t) :
  Matrix3x3.mul Matrix3x3.identity A = A
  /\ Matrix3x3.mul A Matrix3x3.identity = A.
Proof.
  destruct A as [a]. destruct_array a.
  split; apply Matrix3x3_eq; cbn;
    repeat (apply (f_equal2 cons); [float_ring|]); reflexivity.
Qed.

(** X3.  operator* is associative, so the grouping of Rz * Ry * Rx does
    not matter. *)
Theorem Matrix3x3_mul_assoc (A B C : Matrix3x3.t) :
  Matrix3x3.mul (Matrix3x3.mul A B) C = Matrix3x3.mul A (Matrix3x3.mul B C).
Proof.
  destruct A as [a], B as [b], C as [c].
  destruct_array a; destruct_array b; destruct_array c.
  apply Matrix3x3_eq; cbn.
  repeat (apply (f_equal2 cons); [ring|]). reflexivity.
Qed.

(** X4.  Each elementary rotation is the identity at angle 0, and the
    product of two rotations about the same axis is the rotation by the
    sum of the angles; so the rotation by the opposite angle is its
    inverse. *)
Theorem Matrix3x3_rotation_angle_sum (a b : R) :
  (Matrix3x3.rotationX 0 = Matrix3x3.identity
   /\ Matrix3x3.rotationY 0 = Matrix3x3.identity
   /\ Matrix3x3.rotationZ 0 = Matrix3x3.identity)
  /\ (Matrix3x3.mul (Matrix3x3.rotationX a) (Matrix3x3.rotationX b)
      = Matrix3x3.rotationX (a + b)
      /\ Matrix3x3.mul (Matrix3x3.rotationY a) (Matrix3x3.rotationY b)
         = Matrix3x3.rotationY (a + b)
      /\ Matrix3x3.mul (Matrix3x3.rotationZ a) (Matrix3x3.rotationZ b)
         = Matrix3x3.rotationZ (a + b))
  /\ (Matrix3x3.mul (Matrix3x3.rotationX a) (Matrix3x3.rotationX (- a))
      = Matrix3x3.identity
      /\ Matrix3x3.mul (Matrix3x3.rotationY a) (Matrix3x3.rotationY (- a))
         = Matrix3x3.identity
      /\ Matrix3x3.mul (Matrix3x3.rotationZ a) (Matrix3x3.rotationZ (- a))
         = Matrix3x3.identity).
Proof.
  assert (Hzero : Matrix3x3.rotationX 0 = Matrix3x3.identity
                  /\ Matrix3x3.rotationY 0 = Matrix3x3.identity
                  /\ Matrix3x3.rotationZ 0 = Matrix3x3.identity).
  { repeat split; apply Matrix3x3_eq;
      rewrite ?rotationX_entries, ?rotationY_entries, ?rotationZ_entries;
      unfold Matrix3x3.identity; rewrite Matrix3x3_ctor_entries;
      rewrite cos_0, sin_0;
      repeat (apply (f_equal2 cons); [ring|]); reflexivity. }
  assert (Hsum : forall u v,
    Matrix3x3.mul (Matrix3x3.rotationX u) (Matrix3x3.rotationX v)
      = Matrix3x3.rotationX (u + v)
    /\ Matrix3x3.mul (Matrix3x3.rotationY u) (Matrix3x3.rotationY v)
       = Matrix3x3.rotationY (u + v)
    /\ Matrix3x3.mul (Matrix3x3.rotationZ u) (Matrix3x3.rotationZ v)
       = Matrix3x3.rotationZ (u + v)).
  { intros u v. repeat split; apply Matrix3x3_eq;
      rewrite ?rotationX_entries, ?rotationY_entries, ?rotationZ_entries;
      cbn -[cos sin]; rewrite cos_plus, sin_plus;
      repeat (apply (f_equal2 cons); [float_ring|]); reflexivity. }
  split; [exact Hzero|]. split; [apply Hsum|].
  destruct (Hsum a (- a)) as (Hx & Hy & Hz).
  destruct Hzero as (Zx & Zy & Zz).
  rewrite Hx, Hy, Hz. replace (a + - a) with 0 by ring.
  repeat split; assumption.
Qed.

(** X5.  For all angles the upper-left 3x3 block of the model matrix is a
    proper rotation: its rows are orthonormal and its determinant is 1. *)
Theorem normalizeModelMatrix_block_is_rotation
  (tr : array 3) (pitch yaw roll : R) (mm matrix : array 16) :
  let M := normalizeModelMatrix
             (mkHeadPose tr (pitch, (yaw, (roll, tt))) mm) matrix in
  block_row_dot M 0 0 = 1 /\ block_row_dot M 1 1 = 1
  /\ block_row_dot M 2 2 = 1
  /\ block_row_dot M 0 1 = 0 /\ block_row_dot M 0 2 = 0
  /\ block_row_dot M 1 2 = 0
  /\ block_det M = 1.
Proof.
  intros M; subst M. destruct_array tr.
  unfold block_det, block_row_dot, entry4.
  rewrite !normalizeModelMatrix_aget.
  pose proof (trig_one pitch) as Hp.
  pose proof (trig_one yaw) as Hy.
  pose proof (trig_one roll) as Hr.
  generalize dependent (sin pitch); generalize dependent (cos pitch).
  generalize dependent (sin yaw); generalize dependent (cos yaw).
  generalize dependent (sin roll); generalize dependent (cos roll).
  intros cr sr Hr cy sy Hy cp sp Hp.
  cbn [nth Nat.mul Nat.add].
  repeat split; nsatz.
Qed.

Lemma normalizeModelMatrix_independent
  (tr rot : array 3) (mm1 mm2 matrix1 matrix2 : array 16) :
  normalizeModelMatrix (mkHeadPose tr rot mm1) matrix1
  = normalizeModelMatrix (mkHeadPose tr rot mm2) matrix2.
Proof.
  destruct_array tr. destruct_array rot.
  apply to_list_inj. now rewrite !normalizeModelMatrix_entries.
Qed.

(** X6.  The model matrix is a function of the rotation and the
    translation alone: neither the previous content of the output array
    nor the matrix stored in the pose influences it.  The entry in its
    last row and column is always 1. *)
Theorem normalizeModelMatrix_overwrites_all
  (tr rot : array 3) (mm1 mm2 matrix1 matrix2 : array 16) :
  normalizeModelMatrix (mkHeadPose tr rot mm1) matrix1
  = normalizeModelMatrix (mkHeadPose tr rot mm2) matrix2
  /\ entry4 (normalizeModelMatrix (mkHeadPose tr rot mm1) matrix1) 3 3 = 1.
Proof.
  split; [apply normalizeModelMatrix_independent|].
  destruct_array tr. destruct_array rot. unfold entry4.
  rewrite normalizeModelMatrix_aget. reflexivity.
Qed.

(** ** Head pose and key points *)

Lemma at_index_map (f : Landmark -> Landmark) (l : list Landmark) (i : nat) :
  (i < length l)%nat -> at_index (map f l) i = f (at_index l i).
Proof.
  intros Hi. unfold at_index.
  rewrite (nth_indep (map f l) Landmark_zero (f Landmark_zero))
    by (rewrite length_map; exact Hi).
  apply map_nth.
Qed.

Lemma at_index_In (l : list Landmark) (i : nat) :
  (i < length l)%nat -> In (at_index l i) l.
Proof. intros Hi. unfold at_index. now apply nth_In. Qed.

(** X7.  computeHeadPose never writes the model matrix, whatever the
    landmark vector; on a vector of at least 478 landmarks it overwrites
    the whole rotation and translation, so nothing of the previous pose
    but its matrix survives. *)
Theorem computeHeadPose_writes_rotation_and_translation_only
  (landmarks : list Landmark) (p1 p2 : HeadPose) :
  modelMatrix (computeHeadPose landmarks p1) = modelMatrix p1
  /\ ((478 <= length landmarks)%nat ->
      rotation (computeHeadPose landmarks p1)
      = rotation (computeHeadPose landmarks p2)
      /\ translation (computeHeadPose landmarks p1)
         = translation (computeHeadPose landmarks p2)).
Proof.
  split.
  - destruct (Nat.ltb_spec (length landmarks) 478) as [Hlt|Hge].
    + unfold computeHeadPose. now rewrite size_check_fails.
    + now rewrite (computeHeadPose_closed landmarks p1 Hge).
  - intros Hlen.
    now rewrite (computeHeadPose_closed landmarks p1 Hlen),
                (computeHeadPose_closed landmarks p2 Hlen).
Qed.

Lemma computeHeadPose_writes_rotation_and_translation_only_witness :
  let landmarks :=
    sample_landmarks (mkLandmark 0.3 0.5 0) (mkLandmark 0.7 0.5 0)
                     Landmark_zero in
  (478 <= length landmarks)%nat
  /\ rotation (computeHeadPose landmarks HeadPose_zero)
     = rotation (computeHeadPose landmarks
                   (mkHeadPose (1, (2, (3, tt))) (4, (5, (6, tt)))
                               (azero 16))).
Proof.
  intros landmarks.
  split; [apply Nat.eq_le_incl; reflexivity|].
  apply (computeHeadPose_writes_rotation_and_translation_only
           landmarks HeadPose_zero
           (mkHeadPose (1, (2, (3, tt))) (4, (5, (6, tt))) (azero 16))).
  apply Nat.eq_le_incl; reflexivity.
Defined.

(** X8.  Moving every landmark by one offset (dx, dy, dz) leaves pitch
    and roll unchanged, adds 2 * dx to the yaw and adds the offset to the
    translation. *)
Theorem computeHeadPose_shift
  (landmarks : list Landmark) (d : Landmark) (pose : HeadPose) :
  (478 <= length landmarks)%nat ->
  let p := computeHeadPose landmarks pose in
  let p' := computeHeadPose (map (shift_landmark d) landmarks) pose in
  aget (rotation p') 0 = aget (rotation p) 0
  /\ aget (rotation p') 2 = aget (rotation p) 2
  /\ aget (rotation p') 1 = aget (rotation p) 1 + 2 * x d
  /\ aget (translation p') 0 = aget (translation p) 0 + x d
  /\ aget (translation p') 1 = aget (translation p) 1 + y d
  /\ aget (translation p') 2 = aget (translation p) 2 + z d.
Proof.
  intros Hlen p p'. subst p p'.
  rewrite (computeHeadPose_closed landmarks pose Hlen).
  rewrite (computeHeadPose_closed (map (shift_landmark d) landmarks) pose)
    by (rewrite length_map; exact Hlen).
  cbn zeta. rewrite !at_index_map by lia.
  cbn [rotation translation aget fst snd shift_landmark x y z].
  repeat split; try lra.
  f_equal; lra.
Qed.

Lemma computeHeadPose_shift_witness :
  let landmarks :=
    sample_landmarks (mkLandmark 0.3 0.5 0) (mkLandmark 0.7 0.6 0)
                     (mkLandmark 0.5 0.7 0.1) in
  let d := mkLandmark 0.1 0.2 0.3 in
  (478 <= length landmarks)%nat
  /\ aget (rotation (computeHeadPose (map (shift_landmark d) landmarks)
                                     HeadPose_zero)) 0
     = aget (rotation (computeHeadPose landmarks HeadPose_zero)) 0.
Proof.
  intros landmarks d.
  split; [apply Nat.eq_le_incl; reflexivity|].
  apply (computeHeadPose_shift landmarks d HeadPose_zero).
  apply Nat.eq_le_incl; reflexivity.
Defined.

(** X9.  When the left eye, the right eye and the nose tip lie in the
    documented ranges, the pose is bounded: yaw in [-1, 1], pitch in
    [-1.5, 1.5], roll in (-PI, PI], translation x and y in [-0.5, 0.5] and
    z in [-1, 1]; the translation entries of the model matrix lie in
    [-1, 1], [-1, 1] and [0, 2]. *)
Theorem computeHeadPose_bounds (landmarks : list Landmark) (pose : HeadPose) :
  (478 <= length landmarks)%nat ->
  normalised (at_index landmarks 33) ->
  normalised (at_index landmarks 263) ->
  normalised (at_index landmarks 1) ->
  let p := computeHeadPose landmarks pose in
  let M := normalizeModelMatrix p (modelMatrix p) in
  -1 <= aget (rotation p) 1 <= 1
  /\ -1.5 <= aget (rotation p) 0 <= 1.5
  /\ - PI < aget (rotation p) 2 <= PI
  /\ -0.5 <= aget (translation p) 0 <= 0.5
  /\ -0.5 <= aget (translation p) 1 <= 0.5
  /\ -1 <= aget (translation p) 2 <= 1
  /\ -1 <= aget M 12 <= 1
  /\ -1 <= aget M 13 <= 1
  /\ 0 <= aget M 14 <= 2.
Proof.
  intros Hlen (Hlx & Hly & Hlz) (Hrx & Hry & Hrz) (Hnx & Hny & Hnz) p M.
  subst M p.
  rewrite (computeHeadPose_closed landmarks pose Hlen). cbn zeta.
  rewrite !normalizeModelMatrix_aget.
  cbn [rotation translation aget fst snd nth].
  pose proof (atan2_range
                (y (at_index landmarks 263) - y (at_index landmarks 33))
                (x (at_index landmarks 263) - x (at_index landmarks 33))).
  repeat split; lra.
Qed.

Lemma computeHeadPose_bounds_witness :
  let landmarks :=
    sample_landmarks (mkLandmark 0.3 0.5 0) (mkLandmark 0.7 0.6 0)
                     (mkLandmark 0.5 0.7 0.1) in
  (478 <= length landmarks)%nat
  /\ normalised (at_index landmarks 33)
  /\ normalised (at_index landmarks 263)
  /\ normalised (at_index landmarks 1)
  /\ -1 <= aget (rotation (computeHeadPose landmarks HeadPose_zero)) 1 <= 1.
Proof.
  intros landmarks.
  assert (Hlen : (478 <= length landmarks)%nat)
    by (apply Nat.eq_le_incl; reflexivity).
  assert (Hl : normalised (at_index landmarks 33))
    by (unfold normalised; cbn; lra).
  assert (Hr : normalised (at_index landmarks 263))
    by (unfold normalised; cbn; lra).
  assert (Hn : normalised (at_index landmarks 1))
    by (unfold normalised; cbn; lra).
  repeat (split; [assumption|]).
  apply (computeHeadPose_bounds landmarks HeadPose_zero Hlen Hl Hr Hn).
Defined.

(** X10.  Roll at the edges of the eye geometry: level eyes with the
    right eye at larger x give roll 0, level eyes in mirrored order give
    PI, coincident eyes give 0, and eyes on one vertical line give PI / 2
    when the right eye is lower in the frame (larger y) and - PI / 2 when
    it is higher. *)
Theorem computeHeadPose_roll_edge_cases
  (landmarks : list Landmark) (pose : HeadPose) :
  (478 <= length landmarks)%nat ->
  let le := at_index landmarks 33 in
  let re := at_index landmarks 263 in
  let roll := aget (rotation (computeHeadPose landmarks pose)) 2 in
  (y re = y le -> x le < x re -> roll = 0)
  /\ (y re = y le -> x re < x le -> roll = PI)
  /\ (y re = y le -> x re = x le -> roll = 0)
  /\ (x re = x le -> y le < y re -> roll = PI / 2)
  /\ (x re = x le -> y re < y le -> roll = - PI / 2).
Proof.
  intros Hlen le re roll. subst roll.
  rewrite (computeHeadPose_closed landmarks pose Hlen). cbn zeta.
  fold le re. cbn [rotation aget fst snd]. unfold atan2.
  repeat split; intros H1 H2;
    repeat match goal with
           | |- context [Rlt_dec ?a ?b] => destruct (Rlt_dec a b); try lra
           | |- context [Rle_dec ?a ?b] => destruct (Rle_dec a b); try lra
           end.
  - replace ((y re - y le) / (x re - x le)) with 0
      by (rewrite H1; unfold Rdiv; ring).
    apply atan_0.
  - replace ((y re - y le) / (x re - x le)) with 0
      by (rewrite H1; unfold Rdiv; ring).
    rewrite atan_0. ring.
Qed.

Lemma computeHeadPose_roll_edge_cases_witness :
  let landmarks :=
    sample_landmarks (mkLandmark 0.7 0.5 0) (mkLandmark 0.3 0.5 0)
                     Landmark_zero in
  (478 <= length landmarks)%nat
  /\ y (at_index landmarks 263) = y (at_index landmarks 33)
  /\ x (at_index landmarks 263) < x (at_index landmarks 33)
  /\ aget (rotation (computeHeadPose landmarks HeadPose_zero)) 2 = PI.
Proof.
  intros landmarks.
  assert (Hlen : (478 <= length landmarks)%nat)
    by (apply Nat.eq_le_incl; reflexivity).
  assert (Hy : y (at_index landmarks 263) = y (at_index landmarks 33))
    by reflexivity.
  assert (Hx : x (at_index landmarks 263) < x (at_index landmarks 33))
    by (cbn; lra).
  repeat (split; [assumption|]).
  apply (computeHeadPose_roll_edge_cases landmarks HeadPose_zero Hlen);
    assumption.
Defined.

Lemma at_index_checked_in_bounds (landmarks : list Landmark) (i : nat) :
  (i < length landmarks)%nat ->
  at_index_checked landmarks i = Some (at_index landmarks i).
Proof.
  intros Hi. unfold at_index_checked, at_index. now apply nth_error_nth'.
Qed.

(** A checked read at or past the size of the vector fails. *)
Lemma at_index_checked_past_end (landmarks : list Landmark) (i : nat) :
  (length landmarks <= i)%nat -> at_index_checked landmarks i = None.
Proof.
  intros Hi. unfold at_index_checked. now apply nth_error_None.
Qed.

(** X11.  The size check protects every indexed read of extractKeyPoints
    and computeHeadPose: for every landmark vector, of any length, the
    versions of the two functions in which a read past the end of the
    vector is an error never take that error, and they return what
    extractKeyPoints and computeHeadPose return. *)
Theorem size_check_protects_reads
  (landmarks : list Landmark) (kp : KeyPoints) (pose : HeadPose) :
  extractKeyPoints_checked landmarks kp
  = Some (extractKeyPoints landmarks kp)
  /\ computeHeadPose_checked landmarks pose
     = Some (computeHeadPose landmarks pose).
Proof.
  unfold extractKeyPoints_checked, extractKeyPoints,
    computeHeadPose_checked, computeHeadPose, kExpectedLandmarks.
  destruct (Nat.ltb_spec (length landmarks) 478) as [Hlt|Hge].
  - split; reflexivity.
  - cbv [LandmarkIndex.kLeftEye LandmarkIndex.kRightEye
         LandmarkIndex.kNoseTip LandmarkIndex.kUpperLip LandmarkIndex.kChin
         LandmarkIndex.kLeftEar LandmarkIndex.kRightEar
         LandmarkIndex.kForehead].
    rewrite !at_index_checked_in_bounds by lia.
    split; reflexivity.
Qed.

(** X12.  On a vector of at least 478 landmarks extractKeyPoints
    overwrites all eight fields: the result does not depend on the key
    points passed in, its fields are the landmarks at indices 33, 263, 1,
    13, 152, 234, 454 and 10 in declaration order, and each of them is an
    element of the vector. *)
Theorem extractKeyPoints_selects (landmarks : list Landmark)
  (kp1 kp2 : KeyPoints) :
  (478 <= length landmarks)%nat ->
  extractKeyPoints landmarks kp1 = extractKeyPoints landmarks kp2
  /\ keyPoints_list (extractKeyPoints landmarks kp1)
     = map (at_index landmarks) [33; 263; 1; 13; 152; 234; 454; 10]%nat
  /\ Forall (fun lm => In lm landmarks)
            (keyPoints_list (extractKeyPoints landmarks kp1)).
Proof.
  intros Hlen. unfold extractKeyPoints, kExpectedLandmarks.
  rewrite size_check_passes by exact Hlen.
  split; [reflexivity|]. split; [reflexivity|].
  unfold keyPoints_list.
  cbn [leftEye rightEye noseTip upperLip chin leftEar rightEar forehead].
  cbv [LandmarkIndex.kLeftEye LandmarkIndex.kRightEye LandmarkIndex.kNoseTip
       LandmarkIndex.kUpperLip LandmarkIndex.kChin LandmarkIndex.kLeftEar
       LandmarkIndex.kRightEar LandmarkIndex.kForehead].
  repeat (apply Forall_cons; [apply at_index_In; lia|]).
  apply Forall_nil.
Qed.

Lemma extractKeyPoints_selects_witness :
  let landmarks :=
    sample_landmarks (mkLandmark 0.3 0.5 0) (mkLandmark 0.7 0.5 0)
                     (mkLandmark 0.5 0.6 0.1) in
  (478 <= length landmarks)%nat
  /\ keyPoints_list (extractKeyPoints landmarks KeyPoints_zero)
     = map (at_index landmarks) [33; 263; 1; 13; 152; 234; 454; 10]%nat.
Proof.
  intros landmarks.
  split; [apply Nat.eq_le_incl; reflexivity|].
  apply (extractKeyPoints_selects landmarks KeyPoints_zero KeyPoints_zero).
  apply Nat.eq_le_incl; reflexivity.
Defined.

Lemma derive_short (r : FaceResult) :
  (length (landmarks r) < 478)%nat ->
  derive r =
    mkFaceResult (hasFace r) (confidence r) (landmarks r)
      (set_modelMatrix (pose r)
         (normalizeModelMatrix (pose r) (modelMatrix (pose r))))
      (keyPoints r).
Proof.
  intros Hlen. destruct r as [h c lms p kp]. cbn [landmarks] in Hlen.
  unfold derive, extractKeyPoints, computeHeadPose, kExpectedLandmarks,
    set_keyPoints, set_pose.
  cbn [landmarks keyPoints pose hasFace confidence].
  now rewrite size_check_fails by exact Hlen.
Qed.

(** X13.  The derivation step of FaceTracker::processFrame on a result
    with fewer than 478 landmarks keeps the key points, the rotation and
    the translation as they were but still rebuilds the model matrix from
    them; with a zero rotation and translation the matrix becomes the
    identity with entry 14 set to 1, not the zero matrix. *)
Theorem derive_short_landmarks_rebuilds_matrix (r : FaceResult) :
  (length (landmarks r) < 478)%nat ->
  keyPoints (derive r) = keyPoints r
  /\ rotation (pose (derive r)) = rotation (pose r)
  /\ translation (pose (derive r)) = translation (pose r)
  /\ modelMatrix (pose (derive r))
     = normalizeModelMatrix (pose r) (modelMatrix (pose r))
  /\ (rotation (pose r) = azero 3 -> translation (pose r) = azero 3 ->
      to_list (modelMatrix (pose (derive r)))
      = [ 1; 0; 0; 0;  0; 1; 0; 0;  0; 0; 1; 0;  0; 0; 1; 1 ]).
Proof.
  intros Hlen. rewrite (derive_short r Hlen).
  cbn [keyPoints pose set_modelMatrix rotation translation modelMatrix].
  repeat split.
  intros Hrot Htr. destruct (pose r) as [tr rot mm].
  cbn [rotation translation modelMatrix] in *. subst tr rot.
  apply zero_pose_matrix_entries.
Qed.

Lemma derive_short_landmarks_rebuilds_matrix_witness :
  let r := mkFaceResult true 0.95 (repeat (mkLandmark 0.3 0.5 0.1) 477)
                        HeadPose_zero KeyPoints_zero in
  (length (landmarks r) < 478)%nat
  /\ to_list (modelMatrix (pose (derive r)))
     = [ 1; 0; 0; 0;  0; 1; 0; 0;  0; 0; 1; 0;  0; 0; 1; 1 ].
Proof.
  intros r.
  assert (Hlen : (length (landmarks r) < 478)%nat)
    by (cbn [r landmarks]; rewrite repeat_length; lia).
  split; [exact Hlen|].
  apply (derive_short_landmarks_rebuilds_matrix r Hlen); reflexivity.
Defined.

(** X14.  The derivation step is idempotent on every result: running it
    a second time changes nothing. *)
Theorem derive_idempotent (r : FaceResult) : derive (derive r) = derive r.
Proof.
  destruct (Nat.ltb_spec (length (landmarks r)) 478) as [Hlt|Hge].
  - rewrite (derive_short r Hlt).
    rewrite derive_short by exact Hlt.
    cbn [hasFace confidence landmarks pose keyPoints].
    destruct (pose r) as [tr rot mm]. unfold set_modelMatrix.
    cbn [translation rotation modelMatrix].
    now rewrite (normalizeModelMatrix_independent tr rot _ mm _ mm).
  - destruct r as [h c lms p kp]. cbn [landmarks] in Hge.
    rewrite (derive_closed h c lms p kp Hge). cbn zeta.
    now rewrite derive_closed by exact Hge.
Qed.

(** ** The stub and the session *)

Lemma mock_row_bounds (k : nat) :
  (k < 478)%nat ->
  0 <= IZR (Z.quot (Z.of_nat k) 23) / 20.0 <= 1.
Proof.
  intros Hk.
  assert (Hq : (0 <= Z.quot (Z.of_nat k) 23 <= 20)%Z).
  { rewrite Z.quot_div_nonneg by lia.
    split; [apply Z.div_pos; lia|].
    apply Z.lt_succ_r. apply Z.div_lt_upper_bound; lia. }
  destruct Hq as [Hq0 Hq1].
  apply IZR_le in Hq0, Hq1.
  lra.
Qed.

Lemma mockLandmark_ranges (k : nat) :
  (k < 478)%nat ->
  0.35 <= x (mockLandmark (Z.of_nat k)) <= 0.65
  /\ 0.3 <= y (mockLandmark (Z.of_nat k)) <= 0.7
  /\ -0.1 <= z (mockLandmark (Z.of_nat k)) <= 0.1.
Proof.
  intros Hk. pose proof (mock_row_bounds k Hk) as Hv.
  unfold mockLandmark, centerX, centerY, faceWidth, faceHeight.
  cbn [x y z].
  set (v := IZR (Z.quot (Z.of_nat k) 23) / 20.0) in *.
  pose proof (SIN_bound (v * kPi)) as Hs.
  pose proof (COS_bound (v * kPi)) as Hc.
  pose proof (COS_bound (IZR (Z.rem (Z.of_nat k) 23) / 22.0 * 2.0 * kPi))
    as Ha.
  generalize dependent (sin (v * kPi)).
  generalize dependent (cos (v * kPi)).
  generalize dependent
    (cos (IZR (Z.rem (Z.of_nat k) 23) / 22.0 * 2.0 * kPi)).
  intros ca Ha cv Hc sv Hs.
  repeat split; try lra; nra.
Qed.

(** X15.  Every landmark the stub generates lies inside the ranges the
    header documents, with room to spare: x in [0.35, 0.65], y in
    [0.3, 0.7] and z in [-0.1, 0.1]. *)
Theorem mockLandmarks_in_range :
  Forall (fun lm => 0.35 <= x lm <= 0.65 /\ 0.3 <= y lm <= 0.7
                    /\ -0.1 <= z lm <= 0.1) mockLandmarks
  /\ Forall normalised mockLandmarks.
Proof.
  assert (H : Forall (fun lm => 0.35 <= x lm <= 0.65 /\ 0.3 <= y lm <= 0.7
                                /\ -0.1 <= z lm <= 0.1) mockLandmarks).
  { unfold mockLandmarks. apply Forall_map. apply Forall_forall.
    intros k Hk. apply in_seq in Hk. apply mockLandmark_ranges. lia. }
  split; [exact H|].
  apply (Forall_impl _ (P := fun lm => 0.35 <= x lm <= 0.65
                                       /\ 0.3 <= y lm <= 0.7
                                       /\ -0.1 <= z lm <= 0.1));
    [|exact H].
  intros lm (Hx & Hy & Hz). unfold normalised. lra.
Qed.

Lemma step_keeps_config (self : FaceTracker) (c : Call) :
  config_ (impl_ (step self c)) = config_ (impl_ self)
  /\ initialized_ (step self c) = initialized_ self.
Proof.
  destruct c as [storage [buffer|] | |]; cbn [step].
  - rewrite processFrame_frame. split; reflexivity.
  - rewrite processFrame_null. split; reflexivity.
  - split; reflexivity.
  - split; reflexivity.
Qed.

(** X16.  No sequence of processFrame, reset and getLastResult calls
    changes the configuration or the initialised flag of a session; a
    constructed session reports isInitialized true for ever. *)
Theorem run_keeps_config (self : FaceTracker) (calls : list Call) :
  config_ (impl_ (run self calls)) = config_ (impl_ self)
  /\ isInitialized (run self calls) = isInitialized self
  /\ (forall config : Config,
        isInitialized (run (FaceTracker_ctor config) calls) = true
        /\ config_ (impl_ (run (FaceTracker_ctor config) calls)) = config).
Proof.
  assert (H : forall t,
             config_ (impl_ (run t calls)) = config_ (impl_ t)
             /\ initialized_ (run t calls) = initialized_ t).
  { unfold run. induction calls as [|c calls IH]; intros t; cbn [fold_left].
    - split; reflexivity.
    - destruct (IH (step t c)) as [H1 H2].
      destruct (step_keeps_config t c) as [H3 H4].
      split; congruence. }
  unfold isInitialized.
  split; [apply H|]. split; [apply H|].
  intros config. destruct (H (FaceTracker_ctor config)) as [H1 H2].
  split; [rewrite H2 | rewrite H1]; reflexivity.
Qed.

Lemma step_cache_shape (self : FaceTracker) (c : Call) :
  getLastResult self = FaceResult_value_init
  \/ (exists s, getLastResult self = stub_result s) ->
  getLastResult (step self c) = FaceResult_value_init
  \/ (exists s, getLastResult (step self c) = stub_result s).
Proof.
  intros Hinv. destruct c as [storage [buffer|] | |]; cbn [step].
  - right. exists storage. now rewrite processFrame_frame.
  - now rewrite processFrame_null.
  - left. reflexivity.
  - exact Hinv.
Qed.

(** X17.  After any sequence of calls on a constructed session the
    cached result is one of two shapes: the all-zero default with hasFace
    false, confidence 0 and no landmarks, or a stub detection with hasFace
    true, confidence 0.95 and exactly the 478 stub landmarks.  So the
    cache never holds landmarks without hasFace, nor a landmark count
    other than 0 or 478. *)
Theorem run_cache_shape (config : Config) (calls : list Call) :
  let cached := getLastResult (run (FaceTracker_ctor config) calls) in
  (cached = FaceResult_value_init
   /\ hasFace cached = false /\ confidence cached = 0
   /\ landmarks cached = [])
  \/ (hasFace cached = true /\ confidence cached = 0.95
      /\ landmarks cached = mockLandmarks
      /\ length (landmarks cached) = 478%nat).
Proof.
  cbn zeta.
  assert (H : forall t,
             getLastResult t = FaceResult_value_init
             \/ (exists s, getLastResult t = stub_result s) ->
             getLastResult (run t calls) = FaceResult_value_init
             \/ (exists s, getLastResult (run t calls) = stub_result s)).
  { unfold run. induction calls as [|c calls IH]; intros t Ht;
      cbn [fold_left]; [exact Ht|].
    apply IH. now apply step_cache_shape. }
  destruct (H (FaceTracker_ctor config)) as [H0 | [s Hs]].
  - left. reflexivity.
  - left. rewrite H0. repeat split.
  - right. rewrite Hs. cbn [stub_result hasFace confidence landmarks].
    rewrite mockLandmarks_length. repeat split.
Qed.

(** X18.  For every session, storage content and non-null frame, the
    cache after processFrame agrees with the returned result on hasFace,
    confidence and landmarks; its pose and key points are those the
    uninitialised storage held, and the returned result is the derivation
    step applied to the cached value. *)
Theorem processFrame_cache_contents
  (self : FaceTracker) (storage : Indeterminate) (buffer : CVPixelBuffer) :
  let r := fst (processFrame self storage (Some buffer)) in
  let cached := getLastResult (snd (processFrame self storage (Some buffer))) in
  hasFace cached = hasFace r
  /\ confidence cached = confidence r
  /\ landmarks cached = landmarks r
  /\ pose cached = ind_pose storage
  /\ keyPoints cached = ind_keyPoints storage
  /\ r = derive cached.
Proof.
  cbn zeta. rewrite processFrame_frame. cbn [fst snd].
  unfold getLastResult, Impl_getLastResult.
  cbn [impl_ set_lastResult lastResult_].
  unfold stub_result.
  rewrite !derive_closed by (rewrite mockLandmarks_length; lia).
  cbn zeta. repeat split.
Qed.

(** X19.  For every session and non-null frame the result returned by
    processFrame has its nose-tip key point at (0.5, 0.3, 0.1), pitch
    0.18, translation (0, -0.2, 0.1), and model-matrix translation entries
    0, 0.4 and 1.1 at indices 12, 13 and 14. *)
Theorem processFrame_stub_pose
  (self : FaceTracker) (storage : Indeterminate) (buffer : CVPixelBuffer) :
  let r := fst (processFrame self storage (Some buffer)) in
  x (noseTip (keyPoints r)) = 0.5
  /\ y (noseTip (keyPoints r)) = 0.3
  /\ z (noseTip (keyPoints r)) = 0.1
  /\ aget (rotation (pose r)) 0 = 0.18
  /\ aget (translation (pose r)) 0 = 0
  /\ aget (translation (pose r)) 1 = -0.2
  /\ aget (translation (pose r)) 2 = 0.1
  /\ aget (modelMatrix (pose r)) 12 = 0
  /\ aget (modelMatrix (pose r)) 13 = 0.4
  /\ aget (modelMatrix (pose r)) 14 = 1.1.
Proof.
  cbn zeta. rewrite processFrame_frame. cbn [fst]. unfold stub_result.
  rewrite derive_closed by (rewrite mockLandmarks_length; lia).
  cbn zeta.
  rewrite (computeHeadPose_closed mockLandmarks HeadPose_zero)
    by (rewrite mockLandmarks_length; lia).
  cbn zeta. unfold set_modelMatrix.
  cbn [keyPoints pose noseTip rotation translation modelMatrix].
  rewrite !normalizeModelMatrix_aget.
  cbn [aget fst snd nth].
  rewrite !mockLandmarks_at by lia.
  unfold mockLandmark, centerX, centerY, faceWidth, faceHeight.
  cbn [x y z].
  change (Z.quot (Z.of_nat 1) 23) with 0%Z.
  change (Z.quot (Z.of_nat 33) 23) with 1%Z.
  change (Z.quot (Z.of_nat 263) 23) with 11%Z.
  replace (0 / 20.0 * kPi) with 0 by lra.
  rewrite sin_0, cos_0.
  repeat split; lra.
Qed.

(** ** The constant kPi *)

(** The library's series for PI / 4 brackets PI to eight decimals. *)
Lemma PI_bounds : 3.14159265 < PI < 3.14159266.
Proof.
  pose proof (PI_2_3_7_ineq 4) as [Hlo Hhi].
  unfold sum_f_R0, tg_alt, PI_2_3_7_tg, Ratan_seq in Hlo, Hhi.
  cbn [Nat.mul Nat.add pow INR] in Hlo, Hhi.
  lra.
Qed.

(** X20.  The constant kPi is 13176795 * 2^-22, the multiple of 2^-22
    (the spacing of single-precision numbers between 2 and 4) nearest to
    the literal 3.14159265358979323846 of its declaration; it is larger
    than PI, by less than 10^-7. *)
Theorem kPi_approximates_PI :
  kPi = 13176795 / 4194304
  /\ (forall n : Z,
        Rabs (kPi_literal - kPi) <= Rabs (kPi_literal - IZR n / 4194304))
  /\ 0 < kPi - PI < 1 / 10000000.
Proof.
  split; [unfold kPi; lra|]. split.
  - intros n. unfold kPi, kPi_literal.
    destruct (Z_lt_le_dec n 13176795) as [Hlt|Hge].
    + assert (H : (n <= 13176794)%Z) by lia. apply IZR_le in H.
      rewrite (Rabs_left (_ - 3.1415927410125732421875)) by lra.
      rewrite Rabs_right by lra. lra.
    + destruct (Z_le_lt_eq_dec _ _ Hge) as [Hgt|Heq].
      * assert (H : (13176796 <= n)%Z) by lia. apply IZR_le in H.
        rewrite (Rabs_left (_ - 3.1415927410125732421875)) by lra.
        rewrite Rabs_left by lra. lra.
      * subst n. right. f_equal. lra.
  - pose proof PI_bounds. unfold kPi. lra.
Qed.
